(** * Dashboard programático: validation, filtering, aggregation and alerts

    A shallow embedding of the data pipeline of [app.py]:
    [validate_data], the filter that builds [filtered_df], the per-source
    aggregations ([source_metrics], [detailed_metrics], the revenue totals)
    and the alert loop of [show_alerts]; around them the loading of an
    upload, [generate_sample_data], the stop on an empty filter result, the
    technology tabs, the ranking [top_sources] and the series [daily_total].

    Conventions of the embedding.
    - A numeric cell (pandas [int64] or [float64]) is an exact rational
      [Q]: sums, means and comparisons are the mathematical ones.  The
      binary rounding of [float64], the wrap-around of [int64] and the
      values NaN and inf are outside the model.  The code computes what
      the model computes on columns of whole numbers of moderate size
      ([exact_column] below); elsewhere its sums and means carry the
      rounding of [float64] and may depend on the order of the rows.
      Statements that would not survive that rounding are made for such
      columns, or for any function in the place of pandas' sum, mean and
      round ([source_metrics_by]).
    - A table as read from a CSV file, before validation, is a finite map
      from column names to typed columns ([gmap string Column]); the
      validator only looks at which columns exist and at their dtypes.
    - A validated table is a list of rows ([Row]), in the order of the
      file; the filter and the aggregations work on that view.
    - A timestamp ([datetime64[ns]]) is the number of nanoseconds since
      1970-01-01, a calendar date the number of days since that day.
    - The random generator is the sequence of deviates it hands out, and
      its state the number of calls made. *)

From Stdlib Require Import ZArith QArith Qround Qabs List String Ascii Lia Lqa DecimalString.
From stdpp Require Import gmap strings sorting.

Open Scope Q_scope.

(** ** Numbers *)

(** [a < b] on cells, as a boolean. *)
Definition Qltb (a b : Q) : bool := negb (Qle_bool b a).

(** Division, with no result on a zero divisor ([None]: Python raises
    ZeroDivisionError there, numpy warns and gives inf or nan). *)
Definition py_div (a b : Q) : option Q :=
  if Qeq_bool b 0 then None else Some (a / b).

(** Nearest integer, ties to the even neighbour (numpy's [rint]). *)
Definition round_half_even (q : Q) : Z :=
  let f := Qfloor q in
  match Qcompare (q - inject_Z f) (1 # 2) with
  | Lt => f
  | Gt => (f + 1)%Z
  | Eq => if Z.even f then f else (f + 1)%Z
  end.

Definition pow10 (d : nat) : Z := (10 ^ Z.of_nat d)%Z.

(** [x.round(d)]: scale by [10^d], round to the nearest integer, scale back.
    Here the three steps are exact; numpy does them in [float64], which can
    fall on the other side of a tie (a mean of 0.59 and 1.40 gives 0.99
    there and 1.00 here). *)
Definition round_decimals (d : nat) (q : Q) : Q :=
  inject_Z (round_half_even (q * inject_Z (pow10 d))) / inject_Z (pow10 d).

Definition round2 (q : Q) : Q := round_decimals 2 q.

(** ** Formatting: the f-string specifications [.1f] and [.2f] *)

Definition digits (n : Z) : string := NilZero.string_of_uint (N.to_uint (Z.to_N n)).

Fixpoint zeros (n : nat) : string :=
  match n with
  | O => EmptyString
  | S n' => String "0" (zeros n')
  end.

(** The fractional digits, padded with zeros on the left to width [d]. *)
Definition pad_left (d : nat) (s : string) : string :=
  zeros (d - String.length s) +:+ s.

(** [f"{q:.df}"] for [d >= 1]: sign, integer part, a dot and [d] digits. *)
Definition format_fixed (d : nat) (q : Q) : string :=
  let n := round_half_even (Qabs q * inject_Z (pow10 d)) in
  (if Qltb q 0 then "-" else EmptyString)
    +:+ digits (n / pow10 d) +:+ "." +:+ pad_left d (digits (n mod pow10 d)).

(** ** Raw tables *)

Inductive Column :=
| Int64 (cells : list Z)
| Float64 (cells : list Q)
| Bool (cells : list bool)
| Object (cells : list string)
| Datetime64 (cells : list Z).

(** [pd.api.types.is_numeric_dtype]: integers, floats and booleans. *)
Definition is_numeric_dtype (c : Column) : bool :=
  match c with
  | Int64 _ | Float64 _ | Bool _ => true
  | Object _ | Datetime64 _ => false
  end.

Abbreviation DataFrame := (gmap string Column).

(** ** validate_data *)

Definition required_columns : list string :=
  ["Fecha"; "Fuente"; "Revenue"; "Impresiones"; "Page_RPM"; "Fill_Rate"; "eCPM"; "CTR"].

Definition numeric_columns : list string :=
  ["Revenue"; "Impresiones"; "Page_RPM"; "Fill_Rate"; "eCPM"; "CTR"].

(** [col not in df.columns] *)
Definition not_in_columns (df : DataFrame) (col : string) : bool :=
  match df !! col with
  | Some _ => false
  | None => true
  end.

(** [[col for col in required_columns if col not in df.columns]] *)
Definition missing_columns (df : DataFrame) : list string :=
  List.filter (not_in_columns df) required_columns.

Definition msg_missing (missing : list string) : string :=
  "Faltan las siguientes columnas: " +:+ String.concat ", " missing.

Definition msg_dates : string := "Error en formato de fechas. Use YYYY-MM-DD".

Definition msg_not_numeric (col : string) : string :=
  "La columna " +:+ col +:+ " debe ser numérica".

Definition msg_valid : string := "Datos válidos".

(** The loop over [numeric_columns], then the final [return True, ...].
    [None] is the KeyError of [df[col]] on an absent column. *)
Fixpoint check_numeric (df : DataFrame) (cols : list string) : option (bool * string) :=
  match cols with
  | [] => Some (true, msg_valid)
  | col :: rest =>
      match df !! col with
      | None => None
      | Some c =>
          if is_numeric_dtype c then check_numeric df rest
          else Some (false, msg_not_numeric col)
      end
  end.

Section Validator.

(** [pd.to_datetime] applied to a column: the converted column, or [None]
    when the conversion raises. *)
Variable to_datetime : Column -> option Column.

(** [validate_data df]: the table as the call leaves it, and what the call
    returns ([None] when an exception escapes).  The bare [except] around
    the date conversion catches every exception of that statement. *)
Definition validate_data (df : DataFrame) : DataFrame * option (bool * string) :=
  match missing_columns df with
  | (_ :: _) as missing => (df, Some (false, msg_missing missing))
  | [] =>
      match df !! "Fecha" with
      | None => (df, Some (false, msg_dates))
      | Some fecha =>
          match to_datetime fecha with
          | None => (df, Some (false, msg_dates))
          | Some parsed =>
              let df' := <["Fecha" := parsed]> df in
              (df', check_numeric df' numeric_columns)
          end
      end
  end.

End Validator.

(** *** A conversion for dates written YYYY-MM-DD *)

Definition ns_per_day : Z := 86400000000000.

(** Days from 1970-01-01 to the civil date [y]-[m]-[d] (proleptic Gregorian). *)
Definition days_from_civil (y m d : Z) : Z :=
  let y' := if (m <=? 2)%Z then (y - 1)%Z else y in
  let era := (y' / 400)%Z in
  let yoe := (y' - era * 400)%Z in
  let mp := if (m >? 2)%Z then (m - 3)%Z else (m + 9)%Z in
  let doy := ((153 * mp + 2) / 5 + d - 1)%Z in
  let doe := (yoe * 365 + yoe / 4 - yoe / 100 + doy)%Z in
  (era * 146097 + doe - 719468)%Z.

Definition is_leap (y : Z) : bool :=
  ((y mod 4 =? 0) && (negb (y mod 100 =? 0) || (y mod 400 =? 0)))%Z.

Definition days_in_month (y m : Z) : Z :=
  if (m =? 2)%Z then (if is_leap y then 29 else 28)%Z
  else if ((m =? 4) || (m =? 6) || (m =? 9) || (m =? 11))%Z then 30%Z
  else 31%Z.

Definition digit_value (c : ascii) : option Z :=
  let n := Z.of_nat (nat_of_ascii c) in
  if ((48 <=? n) && (n <=? 57))%Z then Some (n - 48)%Z else None.

Fixpoint number_of (acc : Z) (s : list ascii) : option Z :=
  match s with
  | [] => Some acc
  | c :: s' =>
      match digit_value c with
      | Some v => number_of (acc * 10 + v)%Z s'
      | None => None
      end
  end.

(** A string of the exact shape YYYY-MM-DD naming an existing day, as a
    timestamp at midnight. *)
Definition parse_iso_date (s : string) : option Z :=
  match list_ascii_of_string s with
  | [y1; y2; y3; y4; "-"%char; m1; m2; "-"%char; d1; d2] =>
      match number_of 0 [y1; y2; y3; y4], number_of 0 [m1; m2], number_of 0 [d1; d2] with
      | Some y, Some m, Some d =>
          if ((1 <=? m) && (m <=? 12) && (1 <=? d) && (d <=? days_in_month y m))%Z
          then Some (days_from_civil y m d * ns_per_day)%Z
          else None
      | _, _, _ => None
      end
  | _ => None
  end.

(** [q] with its fractional part dropped (C cast to an integer). *)
Definition Qtruncate (q : Q) : Z := if Qltb q 0 then Qceiling q else Qfloor q.

(** [pd.to_datetime] on the columns a CSV with YYYY-MM-DD dates gives: such
    strings are parsed (one bad cell makes the whole call raise), a datetime
    column is kept, numbers count nanoseconds since the epoch, booleans are
    refused.  The other spellings of a date that pandas reads are not
    covered: this conversion refuses them.  It serves the statements about
    concrete uploads; the general ones hold for any conversion. *)
Definition to_datetime_iso (c : Column) : option Column :=
  match c with
  | Object cells => Datetime64 <$> mapM parse_iso_date cells
  | Datetime64 cells => Some (Datetime64 cells)
  | Int64 cells => Some (Datetime64 cells)
  | Float64 cells => Some (Datetime64 (map Qtruncate cells))
  | Bool _ => None
  end.

(** ** Validated tables *)

Record Row := mkRow {
  Fecha : Z;
  Fuente : string;
  Revenue : Q;
  Impresiones : Q;
  Page_RPM : Q;
  Fill_Rate : Q;
  eCPM : Q;
  CTR : Q
}.

(** [.dt.date]: the calendar day of a timestamp. *)
Definition dt_date (ts : Z) : Z := (ts / ns_per_day)%Z.

(** Order of Python strings (by code point, which is the order of the
    UTF-8 bytes). *)
Definition str_le (a b : string) : Prop := String.leb a b = true.

#[global] Instance str_le_dec (a b : string) : Decision (str_le a b).
Proof. unfold str_le. apply _. Defined.

(** [sorted(df['Fuente'].unique())], also the keys of [groupby('Fuente')]. *)
Definition all_sources (df : list Row) : list string :=
  merge_sort str_le (remove_dups (map Fuente df)).

(** [df['Fecha'].min()] and [.max()]; [None] on an empty table. *)
Definition Fecha_min (df : list Row) : option Z :=
  match map Fecha df with
  | [] => None
  | t :: ts => Some (fold_left Z.min ts t)
  end.

Definition Fecha_max (df : list Row) : option Z :=
  match map Fecha df with
  | [] => None
  | t :: ts => Some (fold_left Z.max ts t)
  end.

(** The value the date widget starts with: first and last day of the table. *)
Definition default_date_range (df : list Row) : option (list Z) :=
  match Fecha_min df, Fecha_max df with
  | Some lo, Some hi => Some [dt_date lo; dt_date hi]
  | _, _ => None
  end.

(** ** The filter *)

(** [series.isin(selected)] on one cell. *)
Definition isin (selected : list string) (s : string) : bool :=
  existsb (String.eqb s) selected.

(** [a & b] on boolean series. *)
Definition mask_and (a b : list bool) : list bool := zip_with andb a b.

(** [df[mask]]: the rows whose mask cell is true. *)
Fixpoint boolean_index {A : Type} (rows : list A) (mask : list bool) : list A :=
  match rows, mask with
  | r :: rows', b :: mask' =>
      if b then r :: boolean_index rows' mask' else boolean_index rows' mask'
  | _, _ => []
  end.

Definition filtered_df (df : list Row) (date_range : list Z)
    (selected_sources : list string) : list Row :=
  match date_range with
  | [d0; d1] =>
      boolean_index df
        (mask_and
           (mask_and (map (fun r => (d0 <=? dt_date (Fecha r))%Z) df)
                     (map (fun r => (dt_date (Fecha r) <=? d1)%Z) df))
           (map (fun r => isin selected_sources (Fuente r)) df))
  | _ => boolean_index df (map (fun r => isin selected_sources (Fuente r)) df)
  end.

(** ** Aggregation *)

(** [.sum()] without the rounding of [float64] and without the wrap-around
    of [int64]. *)
Definition sum_Q (l : list Q) : Q := fold_left Qplus l 0.

(** The mean of a group, without the rounding of [float64].  A group of
    [groupby] is never empty; on the empty list, where pandas gives NaN,
    this is 0. *)
Definition mean_Q (l : list Q) : Q := sum_Q l / inject_Z (Z.of_nat (length l)).

(** [df.groupby('Fuente')]: one group per source, keys sorted, each group
    holding its rows in table order. *)
Definition groupby_Fuente (df : list Row) : list (string * list Row) :=
  map (fun k => (k, List.filter (fun r => String.eqb (Fuente r) k) df))
      (all_sources df).

(** [df.groupby('Fuente')['Revenue'].sum()] *)
Definition revenue_by_source (df : list Row) : list (string * Q) :=
  map (fun kg => (fst kg, sum_Q (map Revenue (snd kg)))) (groupby_Fuente df).

Record SourceMetrics := mkSourceMetrics {
  sm_Fill_Rate : Q;
  sm_Revenue : Q;
  sm_eCPM : Q
}.

(** [.agg({'Fill_Rate': 'mean', 'Revenue': 'sum', 'eCPM': 'mean'})] on one group. *)
Definition agg_source (g : list Row) : SourceMetrics :=
  {| sm_Fill_Rate := mean_Q (map Fill_Rate g);
     sm_Revenue := sum_Q (map Revenue g);
     sm_eCPM := mean_Q (map eCPM g) |}.

Definition round_source (m : SourceMetrics) : SourceMetrics :=
  {| sm_Fill_Rate := round2 (sm_Fill_Rate m);
     sm_Revenue := round2 (sm_Revenue m);
     sm_eCPM := round2 (sm_eCPM m) |}.

(** The table [source_metrics] of [show_alerts]. *)
Definition source_metrics (df : list Row) : list (string * SourceMetrics) :=
  map (fun kg => (fst kg, round_source (agg_source (snd kg)))) (groupby_Fuente df).

Record DetailedMetrics := mkDetailedMetrics {
  Revenue_Total : Q;
  Revenue_Promedio : Q;
  Impresiones_Total : Q;
  Page_RPM_mean : Q;
  Fill_Rate_pct : Q;
  eCPM_mean : Q;
  CTR_pct : Q
}.

Definition agg_detailed (g : list Row) : DetailedMetrics :=
  {| Revenue_Total := sum_Q (map Revenue g);
     Revenue_Promedio := mean_Q (map Revenue g);
     Impresiones_Total := sum_Q (map Impresiones g);
     Page_RPM_mean := mean_Q (map Page_RPM g);
     Fill_Rate_pct := mean_Q (map Fill_Rate g);
     eCPM_mean := mean_Q (map eCPM g);
     CTR_pct := mean_Q (map CTR g) |}.

Definition round_detailed (m : DetailedMetrics) : DetailedMetrics :=
  {| Revenue_Total := round2 (Revenue_Total m);
     Revenue_Promedio := round2 (Revenue_Promedio m);
     Impresiones_Total := round2 (Impresiones_Total m);
     Page_RPM_mean := round2 (Page_RPM_mean m);
     Fill_Rate_pct := round2 (Fill_Rate_pct m);
     eCPM_mean := round2 (eCPM_mean m);
     CTR_pct := round2 (CTR_pct m) |}.

Definition detailed_metrics (df : list Row) : list (string * DetailedMetrics) :=
  map (fun kg => (fst kg, round_detailed (agg_detailed (snd kg)))) (groupby_Fuente df).

(** ** Global metrics *)

Definition total_revenue (filtered : list Row) : Q := sum_Q (map Revenue filtered).

(** The total is the code's on an [exact_column] of impressions; an [int64]
    total beyond 2^63 wraps around in the code and does not here. *)
Definition total_impressions (filtered : list Row) : Q := sum_Q (map Impresiones filtered).

(** [(total_revenue / total_impressions) * 1000 if total_impressions > 0 else 0] *)
Definition avg_page_rpm (filtered : list Row) : option Q :=
  if Qltb 0 (total_impressions filtered)
  then q ← py_div (total_revenue filtered) (total_impressions filtered); Some (q * 1000)
  else Some 0.

(** ** Alerts *)

Definition Alert : Type := string * string.

Definition msg_fill_rate (source : string) (v : Q) : string :=
  "⚠️ " +:+ source +:+ ": Fill Rate bajo (" +:+ format_fixed 1 v +:+ "%)".

Definition msg_ecpm (source : string) (v : Q) : string :=
  "⚡ " +:+ source +:+ ": eCPM bajo ($" +:+ format_fixed 2 v +:+ ")".

(** One turn of the loop over [source_metrics.iterrows()]. *)
Definition alert_step (alerts : list Alert) (row : string * SourceMetrics) : list Alert :=
  let source := fst row in
  let metrics := snd row in
  let alerts :=
    if Qltb (sm_Fill_Rate metrics) 80
    then alerts ++ [("danger", msg_fill_rate source (sm_Fill_Rate metrics))]
    else alerts in
  if Qltb (sm_eCPM metrics) 1
  then alerts ++ [("warning", msg_ecpm source (sm_eCPM metrics))]
  else alerts.

(** The loop, from [alerts = []]. *)
Definition alerts_loop (rows : list (string * SourceMetrics)) : list Alert :=
  fold_left alert_step rows [].

(** The list [alerts] that [show_alerts df] builds. *)
Definition alerts (df : list Row) : list Alert := alerts_loop (source_metrics df).

Section LibraryAggregates.

(** The sum, the mean and the rounding to two decimals of pandas, as they
    are in the library: any functions on the cells. *)
Variables agg_sum agg_mean : list Q → Q.
Variable round_2 : Q → Q.

(** [.agg({...}).round(2)] on one group. *)
Definition agg_source_by (g : list Row) : SourceMetrics :=
  {| sm_Fill_Rate := round_2 (agg_mean (map Fill_Rate g));
     sm_Revenue := round_2 (agg_sum (map Revenue g));
     sm_eCPM := round_2 (agg_mean (map eCPM g)) |}.

(** The table [source_metrics] and the list [alerts] of [show_alerts]. *)
Definition source_metrics_by (df : list Row) : list (string * SourceMetrics) :=
  map (fun kg => (fst kg, agg_source_by (snd kg))) (groupby_Fuente df).

Definition alerts_by (df : list Row) : list Alert := alerts_loop (source_metrics_by df).

End LibraryAggregates.

Definition dquote : string := String "034"%char EmptyString.

(** What [show_alerts] writes with [st.markdown]: one block per alert, or
    the all-clear block. *)
Definition show_alerts (df : list Row) : list string :=
  match alerts df with
  | [] =>
      ["<div class=" +:+ dquote +:+ "alert-success" +:+ dquote
         +:+ ">✅ Todas las fuentes funcionan correctamente</div>"]
  | al =>
      map (fun a => "<div class=" +:+ dquote +:+ "alert-" +:+ fst a +:+ dquote
                      +:+ ">" +:+ snd a +:+ "</div>") al
  end.

(** ** Loading an upload *)

(** How the block that loads an uploaded file ends: validation refused the
    table ([st.error] with the reason, then [st.stop]), an exception was
    caught by [except Exception] (its text comes from the library), or the
    table is ready for the rest of the page. *)
Inductive LoadResult :=
| DataError (shown : string)
| FileError
| Loaded (df : DataFrame).

Section Loading.

(** [pd.read_csv] on the uploaded file ([None] when it raises, as on an
    empty or malformed file) and [pd.to_datetime] on a column. *)
Context {File : Type}.
Variable read_csv : File → option DataFrame.
Variable to_datetime : Column -> option Column.

(** The upload branch: the body of the [try], with [except Exception]
    around it. *)
Definition load_upload (uploaded_file : File) : LoadResult :=
  match read_csv uploaded_file with
  | None => FileError
  | Some df =>
      match validate_data to_datetime df with
      | (_, None) => FileError
      | (_, Some (false, message)) => DataError ("Error en los datos: " +:+ message)
      | (df', Some (true, _)) =>
          match df' !! "Fecha" with
          | None => FileError
          | Some fecha =>
              match to_datetime fecha with
              | None => FileError
              | Some parsed => Loaded (<["Fecha" := parsed]> df')
              end
          end
      end
  end.

End Loading.

(** ** The page after the filter *)

Inductive Page :=
| Halted (warning : string)
| Rendered (blocks : list string).

(** The filter, the stop on an empty result and the alert section. *)
Definition alert_section (df : list Row) (date_range : list Z)
    (selected_sources : list string) : Page :=
  match filtered_df df date_range selected_sources with
  | [] => Halted "No hay datos para los filtros seleccionados"
  | filtered => Rendered (show_alerts filtered)
  end.

(** [filtered_df['Fill_Rate'].mean()] and [filtered_df['eCPM'].mean()] *)
Definition avg_fill_rate (filtered : list Row) : Q := mean_Q (map Fill_Rate filtered).

Definition avg_ecpm (filtered : list Row) : Q := mean_Q (map eCPM filtered).

(** ** Technology tabs *)

(** [pat in s], also [s.str.contains(pat)] for a pattern of plain letters. *)
Fixpoint str_contains (pat s : string) : bool :=
  String.prefix pat s
  || match s with
     | EmptyString => false
     | String _ s' => str_contains pat s'
     end.

Record TechMetrics := mkTechMetrics {
  tm_Revenue : Q;
  tm_Impresiones : Q;
  tm_Fill_Rate : Q;
  tm_eCPM : Q
}.

Definition agg_tech (g : list Row) : TechMetrics :=
  {| tm_Revenue := sum_Q (map Revenue g);
     tm_Impresiones := sum_Q (map Impresiones g);
     tm_Fill_Rate := mean_Q (map Fill_Rate g);
     tm_eCPM := mean_Q (map eCPM g) |}.

Definition round_tech (m : TechMetrics) : TechMetrics :=
  {| tm_Revenue := round2 (tm_Revenue m);
     tm_Impresiones := round2 (tm_Impresiones m);
     tm_Fill_Rate := round2 (tm_Fill_Rate m);
     tm_eCPM := round2 (tm_eCPM m) |}.

(** [filtered_df[filtered_df['Fuente'].str.contains(keyword)]] *)
Definition tech_data (keyword : string) (filtered : list Row) : list Row :=
  boolean_index filtered (map (fun r => str_contains keyword (Fuente r)) filtered).

(** The table of a tab; [None] when the tab stays empty. *)
Definition tech_metrics (keyword : string) (filtered : list Row)
    : option (list (string * TechMetrics)) :=
  match tech_data keyword filtered with
  | [] => None
  | data => Some (map (fun kg => (fst kg, round_tech (agg_tech (snd kg)))) (groupby_Fuente data))
  end.

Definition google_metrics : list Row -> option (list (string * TechMetrics)) :=
  tech_metrics "Google".

Definition prebid_metrics : list Row -> option (list (string * TechMetrics)) :=
  tech_metrics "Prebid".

Definition tam_metrics : list Row -> option (list (string * TechMetrics)) :=
  tech_metrics "TAM".

(** ** Ranking and daily totals *)

(** Larger revenue first. *)
Definition revenue_desc (a b : string * Q) : Prop := Qle_bool (snd b) (snd a) = true.

#[global] Instance revenue_desc_dec (a b : string * Q) : Decision (revenue_desc a b).
Proof. unfold revenue_desc. apply _. Defined.

(** [groupby('Fuente')['Revenue'].sum().sort_values(ascending=False).head(10)].
    Sources of equal revenue come in the order a stable sort leaves them;
    pandas promises no order among them. *)
Definition top_sources (filtered : list Row) : list (string * Q) :=
  firstn 10 (merge_sort revenue_desc (revenue_by_source filtered)).

(** [groupby('Fecha')['Revenue'].sum().reset_index()] *)
Definition daily_total (filtered : list Row) : list (Z * Q) :=
  map (fun t => (t, sum_Q (map Revenue (List.filter (fun r => (Fecha r =? t)%Z) filtered))))
      (merge_sort Z.le (remove_dups (map Fecha filtered))).

(** ** Sample data *)

(** Year, month and day of a day counted from 1970-01-01. *)
Definition civil_from_days (z : Z) : Z * Z * Z :=
  let z' := (z + 719468)%Z in
  let era := (z' / 146097)%Z in
  let doe := (z' - era * 146097)%Z in
  let yoe := ((doe - doe / 1460 + doe / 36524 - doe / 146096) / 365)%Z in
  let doy := (doe - (365 * yoe + yoe / 4 - yoe / 100))%Z in
  let mp := ((5 * doy + 2) / 153)%Z in
  let d := (doy - (153 * mp + 2) / 5 + 1)%Z in
  let m := if (mp <? 10)%Z then (mp + 3)%Z else (mp - 9)%Z in
  let y := (yoe + era * 400 + (if (m <=? 2)%Z then 1 else 0))%Z in
  (y, m, d).

(** [date.strftime('%Y-%m-%d')] on a timestamp. *)
Definition strftime_iso (ts : Z) : string :=
  let '(y, m, d) := civil_from_days (dt_date ts) in
  pad_left 4 (digits y) +:+ "-" +:+ pad_left 2 (digits m) +:+ "-" +:+ pad_left 2 (digits d).

(** [pd.date_range(start='2024-01-01', end='2024-01-31', freq='D')] *)
Definition sample_dates : list Z :=
  map (fun i => ((19723 + Z.of_nat i) * ns_per_day)%Z) (seq 0 31).

Definition sample_sources : list string :=
  ["Google_AdEx"; "Google_OpenBidding";
   "Prebid_Nexx360"; "Prebid_Richaudience"; "Prebid_AppNexus";
   "Prebid_Ogury"; "Prebid_Criteo"; "Prebid_Optidigital";
   "TAM_Amazon"; "TAM_IndexExchange"; "TAM_Outbrain";
   "TAM_Pubmatic"; "TAM_Onetag"; "TAM_MediaNet"; "TAM_Equativ"].

(** One dictionary of the list [data]. *)
Record SampleRecord := mkSampleRecord {
  s_Fecha : string;
  s_Fuente : string;
  s_Revenue : Q;
  s_Impresiones : Z;
  s_Page_RPM : Q;
  s_Fill_Rate : Q;
  s_eCPM : Q;
  s_CTR : Q
}.

(** A loop that threads the state of the random generator. *)
Fixpoint for_each {A B : Type} (body : A → nat → B * nat) (l : list A) (n : nat)
    : list B * nat :=
  match l with
  | [] => ([], n)
  | x :: l' =>
      let (y, n1) := body x n in
      let (ys, n2) := for_each body l' n1 in
      (y :: ys, n2)
  end.

Section SampleData.

(** The generator of numpy, as the deviates it hands out: its [k]-th call
    is served with [gauss k], a standard normal deviate, or with [unif k],
    a uniform deviate of [0, 1), according to the distribution asked for.
    The state is the number of calls made so far. *)
Variables gauss unif : nat → Q.

(** [np.random.normal(loc, scale)] and [np.random.uniform(low, high)] *)
Definition normal (loc scale : Q) (n : nat) : Q * nat :=
  (loc + scale * gauss n, S n).

Definition uniform (low high : Q) (n : nat) : Q * nat :=
  (low + (high - low) * unif n, S n).

(** The body of the inner loop. *)
Definition sample_record (date : Z) (source : string) (n : nat) : SampleRecord * nat :=
  let '(base_revenue, base_impressions, n) :=
    if str_contains "Google" source then
      let (r, n) := normal 8000 1500 n in
      let (i, n) := normal 2000000 300000 n in (r, i, n)
    else if str_contains "Prebid" source then
      let (r, n) := normal 3000 800 n in
      let (i, n) := normal 800000 150000 n in (r, i, n)
    else
      let (r, n) := normal 2500 600 n in
      let (i, n) := normal 600000 100000 n in (r, i, n) in
  let revenue := if Qltb 0 base_revenue then base_revenue else 0 in
  let impressions := Z.max 1000 (Qtruncate base_impressions) in
  let page_rpm :=
    if (0 <? impressions)%Z then revenue / inject_Z impressions * 1000 else 0 in
  let (fill_rate, n) := uniform 75 95 n in
  let ecpm :=
    if (0 <? impressions)%Z then revenue / inject_Z impressions * 1000 else 0 in
  let (ctr, n) := uniform 0.1 2.5 n in
  ({| s_Fecha := strftime_iso date;
      s_Fuente := source;
      s_Revenue := round2 revenue;
      s_Impresiones := impressions;
      s_Page_RPM := round2 page_rpm;
      s_Fill_Rate := round2 fill_rate;
      s_eCPM := round2 ecpm;
      s_CTR := round2 ctr |}, n).

(** [generate_sample_data()], from the generator state [n]. *)
Definition generate_sample_data (n : nat) : list SampleRecord :=
  concat (fst (for_each (fun date => for_each (sample_record date) sample_sources)
                        sample_dates n)).

(** The sample branch of the page: the generated table with its [Fecha]
    column converted ([None] when the conversion raises). *)
Definition sample_table (n : nat) : option (list Row) :=
  mapM (fun rec =>
          ts ← parse_iso_date (s_Fecha rec);
          Some (mkRow ts (s_Fuente rec) (s_Revenue rec) (inject_Z (s_Impresiones rec))
                      (s_Page_RPM rec) (s_Fill_Rate rec) (s_eCPM rec) (s_CTR rec)))
       (generate_sample_data n).

End SampleData.

(** ** Vocabulary of the statements *)

(** The column [col] exists and has a numeric dtype. *)
Definition column_is_numeric (df : DataFrame) (col : string) : bool :=
  match df !! col with
  | Some c => is_numeric_dtype c
  | None => false
  end.

(** [col] is the first column of the scan order that is not numeric. *)
Definition first_offending (df : DataFrame) (col : string) : Prop :=
  ∃ pre post,
    numeric_columns = pre ++ col :: post
    ∧ Forall (fun c => column_is_numeric df c = true) pre
    ∧ column_is_numeric df col = false.

(** The numbers a numeric column holds. *)
Definition column_values (c : Column) : list Q :=
  match c with
  | Int64 cells => map inject_Z cells
  | Float64 cells => cells
  | Bool cells => map (fun b : bool => if b then 1 else 0) cells
  | Object _ | Datetime64 _ => []
  end.

(** Some row of the table has zero or negative impressions. *)
Definition has_nonpositive_impressions (df : DataFrame) : Prop :=
  ∃ c v, df !! "Impresiones" = Some c ∧ In v (column_values c) ∧ v <= 0.

(** A small upload: two rows, the first with no impressions at all. *)
Definition upload_zero_impressions : DataFrame :=
  list_to_map
    [("Fecha", Object ["2024-01-01"; "2024-01-02"]);
     ("Fuente", Object ["Google_AdEx"; "TAM_Amazon"]);
     ("Revenue", Float64 [0; 2500.75]);
     ("Impresiones", Int64 [0; 600000]%Z);
     ("Page_RPM", Float64 [0; 4.17]);
     ("Fill_Rate", Float64 [81.5; 90]);
     ("eCPM", Float64 [0; 4.17]);
     ("CTR", Float64 [0.4; 1.2])].

(** The same upload with a negative impression count, and one where two
    numeric columns were read as text. *)
Definition upload_negative_impressions : DataFrame :=
  <["Impresiones" := Int64 [-5; 600000]%Z]> upload_zero_impressions.

Definition upload_text_columns : DataFrame :=
  <["Fill_Rate" := Object ["81,5"; "90"]]>
    (<["CTR" := Object ["n/a"; "1.2"]]> upload_zero_impressions).

Definition upload_without_dates_and_ctr : DataFrame :=
  delete "CTR" (delete "Fecha" upload_zero_impressions).

(** Following the specification's words: a row is kept when its date lies
    in the inclusive range and its source is one of the selected ones. *)
Definition in_selection (d1 d2 : Z) (S : list string) (r : Row) : bool :=
  (d1 <=? dt_date (Fecha r))%Z && (dt_date (Fecha r) <=? d2)%Z && isin S (Fuente r).

Definition filter_spec (ds : list Row) (d1 d2 : Z) (S : list string) : list Row :=
  List.filter (in_selection d1 d2 S) ds.

(** A number with at most two decimals. *)
Definition two_decimals (q : Q) : Prop := ∃ n : Z, q == inject_Z n / 100.

(** A whole number. *)
Definition whole (q : Q) : Prop := ∃ n : Z, q == inject_Z n.

(** A column on which the arithmetic of pandas is exact: whole numbers
    whose magnitudes add up to less than 2^53 / 100.  Every partial sum,
    in any order, and a hundred times it, is then a [float64] (and an
    [int64]) without rounding, so [.sum()] gives the sum and [.round(2)]
    gives its argument back. *)
Definition exact_column (f : Row → Q) (df : list Row) : Prop :=
  Forall (fun r => whole (f r)) df
  ∧ sum_Q (map (fun r => Qabs (f r)) df) * 100 < inject_Z (2 ^ 53).

Definition day_2024_01_01 : Z := 1704067200000000000.
Definition day_2024_01_02 : Z := 1704153600000000000.

(** The scenario of two sources over two days. *)
Definition two_sources_two_days : list Row :=
  [ mkRow day_2024_01_01 "SourceA" 100 1000 100 70 0.5 1.1;
    mkRow day_2024_01_01 "SourceB" 50 2000 25 90 0.25 0.8;
    mkRow day_2024_01_02 "SourceA" 200 1000 200 70 0.5 1.3;
    mkRow day_2024_01_02 "SourceB" 50 2000 25 90 0.25 0.9 ].

(** Revenues with three decimals. *)
Definition revenue_in_thousandths : list Row :=
  [ mkRow day_2024_01_01 "Google_AdEx" 1200.126 400000 3.0 88 3.0 1.1;
    mkRow day_2024_01_01 "Prebid_Criteo" 800.126 250000 3.2 91 3.2 0.8 ].

(** A table whose impressions add up to a negative number. *)
Definition negative_impressions : list Row :=
  [ mkRow day_2024_01_01 "Prebid_Criteo" 12.5 (-1000) 3.0 88 3.0 1.1 ].

(** The number of alerts of one type in a list. *)
Definition count_type (t : string) (l : list Alert) : nat :=
  length (List.filter (fun a => String.eqb (fst a) t) l).

(** The number of rows of the mapping under a threshold. *)
Definition count_below (f : SourceMetrics → Q) (limit : Q)
    (rows : list (string * SourceMetrics)) : nat :=
  length (List.filter (fun row => Qltb (f (snd row)) limit) rows).

(** A source whose means are 79.996 and 0.996. *)
Definition means_just_below : list Row :=
  [ mkRow day_2024_01_01 "Google_OpenBidding" 7900 2000000 3.95 79.994 0.995 1.1;
    mkRow day_2024_01_02 "Google_OpenBidding" 8100 2000000 4.05 79.998 0.997 1.3 ].

(** A table that was read with its dates in another spelling. *)
Definition upload_bad_dates : DataFrame :=
  <["Fecha" := Object ["01/01/2024"; "2024-01-02"]]> upload_text_columns.

(** What the filter asks of a row, for any value of the date widget. *)
Definition keeps (date_range : list Z) (S : list string) (r : Row) : bool :=
  match date_range with
  | [d0; d1] => in_selection d0 d1 S r
  | _ => isin S (Fuente r)
  end.

(** The blocks that [show_alerts] writes: the all-clear one, and the one of
    an alert. *)
Definition all_clear_block : string :=
  "<div class=" +:+ dquote +:+ "alert-success" +:+ dquote
    +:+ ">✅ Todas las fuentes funcionan correctamente</div>".

Definition alert_block (a : Alert) : string :=
  "<div class=" +:+ dquote +:+ "alert-" +:+ fst a +:+ dquote
    +:+ ">" +:+ snd a +:+ "</div>".

(** Fill rates and eCPM above the thresholds on every row. *)
Definition healthy_sources : list Row :=
  [ mkRow day_2024_01_01 "Google_AdEx" 8000 2000000 4 80 1 1.1;
    mkRow day_2024_01_02 "Google_AdEx" 8200 2000000 4.1 93.5 4.1 1.3;
    mkRow day_2024_01_01 "TAM_Pubmatic" 2500 600000 4.17 88.25 4.17 0.9 ].

(** Fill rates of 79.99 at most on every row. *)
Definition low_fill_sources : list Row :=
  [ mkRow day_2024_01_01 "Prebid_Ogury" 3000 800000 3.75 79.99 3.75 1.1;
    mkRow day_2024_01_02 "Prebid_Ogury" 3100 800000 3.88 78.4 3.88 1.3;
    mkRow day_2024_01_01 "TAM_Onetag" 2500 600000 4.17 75.5 4.17 0.9 ].

(** The four figures of the detailed table that a tab also shows. *)
Definition tech_view (m : DetailedMetrics) : TechMetrics :=
  {| tm_Revenue := Revenue_Total m;
     tm_Impresiones := Impresiones_Total m;
     tm_Fill_Rate := Fill_Rate_pct m;
     tm_eCPM := eCPM_mean m |}.

(** A generated record as a row, with the date read back from its text. *)
Definition sample_row (rec : SampleRecord) : Row :=
  mkRow (default 0%Z (parse_iso_date (s_Fecha rec))) (s_Fuente rec) (s_Revenue rec)
        (inject_Z (s_Impresiones rec)) (s_Page_RPM rec) (s_Fill_Rate rec)
        (s_eCPM rec) (s_CTR rec).

(** ** The validator *)

Lemma sublist_List_filter {A : Type} (f : A → bool) (l : list A) :
  List.filter f l `sublist_of` l.
Proof.
  induction l as [|x l IH]; simpl.
  - constructor.
  - destruct (f x); [by apply sublist_skip | by apply sublist_cons].
Qed.

Lemma In_missing_columns (df : DataFrame) (c : string) :
  In c (missing_columns df) ↔ In c required_columns ∧ df !! c = None.
Proof.
  unfold missing_columns. rewrite filter_In. unfold not_in_columns.
  destruct (df !! c); intuition congruence.
Qed.

Lemma missing_columns_nil (df : DataFrame) :
  missing_columns df = [] ↔ ∀ c, In c required_columns → is_Some (df !! c).
Proof.
  split.
  - intros Hnil c Hc. destruct (df !! c) eqn:E; [eauto|].
    assert (In c (missing_columns df)) as Hin by (apply In_missing_columns; auto).
    rewrite Hnil in Hin. destruct Hin.
  - intros Hall. destruct (missing_columns df) as [|c l] eqn:E; [done|].
    assert (In c (missing_columns df)) as Hin by (rewrite E; left; done).
    apply In_missing_columns in Hin as [Hc Hnone].
    apply Hall in Hc as [x Hx]. congruence.
Qed.

Lemma numeric_columns_not_Fecha (c : string) :
  In c numeric_columns → c ≠ "Fecha".
Proof.
  unfold numeric_columns. simpl. intros H.
  repeat (destruct H as [<- | H]; [discriminate|]). destruct H.
Qed.

Lemma numeric_columns_required (c : string) :
  In c numeric_columns → In c required_columns.
Proof. unfold numeric_columns, required_columns. simpl. tauto. Qed.

(** The scan either accepts a list of numeric columns or stops at the
    first column that is not numeric. *)
Lemma check_numeric_scan (df : DataFrame) (cols : list string) :
  (Forall (fun c => column_is_numeric df c = true) cols
   ∧ check_numeric df cols = Some (true, msg_valid))
  ∨ (∃ pre col post,
       cols = pre ++ col :: post
       ∧ Forall (fun c => column_is_numeric df c = true) pre
       ∧ column_is_numeric df col = false
       ∧ (is_Some (df !! col) → check_numeric df cols = Some (false, msg_not_numeric col))).
Proof.
  induction cols as [|c cols IH]; simpl.
  - left. split; [constructor | done].
  - destruct (column_is_numeric df c) eqn:Hc.
    + unfold column_is_numeric in Hc. destruct (df !! c) as [col|] eqn:E; [|done].
      rewrite Hc. destruct IH as [[Hall Hok] | (pre & col' & post & -> & Hpre & Hcol & Hres)].
      * left. split; [|done]. constructor; [|done].
        unfold column_is_numeric. by rewrite E.
      * right. exists (c :: pre), col', post. repeat split; [| done | done].
        constructor; [|done]. unfold column_is_numeric. by rewrite E.
    + right. exists [], c, cols. repeat split; [constructor | done |].
      intros [x Hx]. unfold column_is_numeric in Hc. rewrite Hx in Hc |- *.
      by rewrite Hc.
Qed.

Lemma first_split_unique {A : Type} (P : A → Prop) (pre pre' post post' : list A) (x x' : A) :
  pre ++ x :: post = pre' ++ x' :: post' →
  Forall P pre → ¬ P x → Forall P pre' → ¬ P x' →
  pre = pre' ∧ x = x'.
Proof.
  revert pre'. induction pre as [|a pre IH]; intros [|a' pre'] Heq Hpre Hx Hpre' Hx'; simpl in Heq.
  - by inversion Heq.
  - inversion Heq; subst. inversion Hpre'; subst. contradiction.
  - inversion Heq; subst. inversion Hpre; subst. contradiction.
  - inversion Heq; subst. inversion Hpre; inversion Hpre'; subst.
    destruct (IH pre') as [-> ->]; auto.
Qed.

Lemma first_offending_unique (df : DataFrame) (c c' : string) :
  first_offending df c → first_offending df c' → c = c'.
Proof.
  intros (pre & post & E & Hpre & Hc) (pre' & post' & E' & Hpre' & Hc').
  rewrite E in E'.
  eapply (first_split_unique (fun c => column_is_numeric df c = true)) in E' as [_ ?];
    eauto; congruence.
Qed.

Section ValidatorFacts.

Variable to_datetime : Column → option Column.

Lemma column_is_numeric_insert_Fecha (df : DataFrame) (parsed : Column) (c : string) :
  In c numeric_columns →
  column_is_numeric (<["Fecha" := parsed]> df) c = column_is_numeric df c.
Proof.
  intros Hc. unfold column_is_numeric.
  rewrite lookup_insert_ne; [done|]. apply not_eq_sym. by apply numeric_columns_not_Fecha.
Qed.

Lemma first_offending_insert_Fecha (df : DataFrame) (parsed : Column) (c : string) :
  first_offending (<["Fecha" := parsed]> df) c → first_offending df c.
Proof.
  intros (pre & post & E & Hpre & Hc). exists pre, post.
  assert (∀ x, In x (pre ++ c :: post) → In x numeric_columns) as Hsub
    by (intros x; by rewrite E).
  split; [done|]. split.
  - rewrite Forall_forall in Hpre |- *. intros x Hx.
    rewrite <- (column_is_numeric_insert_Fecha df parsed).
    + apply Hpre, Hx.
    + apply Hsub, in_or_app. left. by apply list_elem_of_In.
  - rewrite <- (column_is_numeric_insert_Fecha df parsed); [done|].
    apply Hsub, in_or_app. right. by left.
Qed.

(** C5.  A table that lacks required columns is refused, and the message
    is the fixed prefix followed by all the missing columns, separated by
    a comma and a space, in the order of [required_columns]; the table is
    left as it was. *)
Theorem validate_lists_every_missing_column (df : DataFrame) :
  (∃ c, In c required_columns ∧ df !! c = None) →
  validate_data to_datetime df
    = (df, Some (false, "Faltan las siguientes columnas: "
                          +:+ String.concat ", " (missing_columns df)))
  ∧ (∀ c, In c (missing_columns df) ↔ In c required_columns ∧ df !! c = None)
  ∧ missing_columns df `sublist_of` required_columns.
Proof.
  intros (c & Hc & Hnone). split; [|split].
  - unfold validate_data.
    destruct (missing_columns df) as [|m l] eqn:E; [|done].
    assert (In c (missing_columns df)) as Hin by (apply In_missing_columns; auto).
    rewrite E in Hin. destruct Hin.
  - apply In_missing_columns.
  - apply sublist_List_filter.
Qed.

(** C6.  With the eight columns present and a date column that converts,
    a table with a non-numeric column among the six is refused with the
    message that names the first such column of the scan order, and no
    other column. *)
Theorem validate_names_first_non_numeric (df : DataFrame) (fecha parsed : Column) :
  (∀ c, In c required_columns → is_Some (df !! c)) →
  df !! "Fecha" = Some fecha →
  to_datetime fecha = Some parsed →
  (∃ c, In c numeric_columns ∧ column_is_numeric df c = false) →
  ∃ col,
    first_offending df col
    ∧ (∀ col', first_offending df col' → col' = col)
    ∧ snd (validate_data to_datetime df)
        = Some (false, "La columna " +:+ col +:+ " debe ser numérica").
Proof.
  intros Hall Hfecha Hparsed (bad & Hbad & Hnot).
  unfold validate_data.
  apply missing_columns_nil in Hall as Hmiss. rewrite Hmiss, Hfecha, Hparsed. simpl.
  destruct (check_numeric_scan (<["Fecha" := parsed]> df) numeric_columns)
    as [[Hnum _] | (pre & col & post & E & Hpre & Hcol & Hres)].
  - rewrite Forall_forall in Hnum.
    pose proof (Hnum bad (proj2 (list_elem_of_In _ _) Hbad)) as Hyes.
    rewrite column_is_numeric_insert_Fecha in Hyes by done.
    congruence.
  - assert (In col numeric_columns) as Hin by (rewrite E; apply in_or_app; right; by left).
    assert (first_offending df col) as Hfirst
      by (apply (first_offending_insert_Fecha df parsed); by exists pre, post).
    exists col. split; [done|]. split.
    + intros col' H'. by apply (first_offending_unique df).
    + apply Hres. rewrite lookup_insert_ne
        by (apply not_eq_sym; by apply numeric_columns_not_Fecha).
      by apply Hall, numeric_columns_required.
Qed.

(** C7, as the code has it.  The validator looks at dtypes only: a table
    with the eight columns, a date column that converts and six numeric
    columns is accepted whatever numbers it holds, zero and negative
    impression counts included. *)
Theorem validate_accepts_any_numbers (df : DataFrame) (fecha parsed : Column) :
  df !! "Fecha" = Some fecha →
  to_datetime fecha = Some parsed →
  is_Some (df !! "Fuente") →
  (∀ c, In c numeric_columns → column_is_numeric df c = true) →
  snd (validate_data to_datetime df) = Some (true, "Datos válidos").
Proof.
  intros Hfecha Hparsed Hfuente Hnum.
  assert (missing_columns df = []) as Hmiss.
  { apply missing_columns_nil. intros c Hc.
    unfold required_columns in Hc. simpl in Hc.
    destruct Hc as [<- | [<- | Hc]]; [by rewrite Hfecha | done |].
    assert (In c numeric_columns) as Hin by (unfold numeric_columns; simpl; tauto).
    apply Hnum in Hin. unfold column_is_numeric in Hin.
    destruct (df !! c); [eauto | done]. }
  unfold validate_data. rewrite Hmiss, Hfecha, Hparsed. simpl.
  destruct (check_numeric_scan (<["Fecha" := parsed]> df) numeric_columns)
    as [[_ Hok] | (pre & col & post & E & _ & Hcol & _)]; [done|].
  assert (In col numeric_columns) as Hin by (rewrite E; apply in_or_app; right; by left).
  rewrite column_is_numeric_insert_Fecha in Hcol by done.
  apply Hnum in Hin. congruence.
Qed.

(** C2, as the code has it.  A call leaves every column but [Fecha] as it
    was.  It leaves the whole table as it was when a required column is
    missing and when the date column does not convert.  When the eight
    columns are present and the date column converts, the call has put the
    converted column in the place of [Fecha] in the caller's table,
    whether it then accepts the table or refuses a numeric column. *)
Theorem validate_changes_only_Fecha (df : DataFrame) :
  (∀ c, c ≠ "Fecha" → fst (validate_data to_datetime df) !! c = df !! c)
  ∧ ((∃ c, In c required_columns ∧ df !! c = None) →
     fst (validate_data to_datetime df) = df)
  ∧ (∀ fecha,
       (∀ c, In c required_columns → is_Some (df !! c)) →
       df !! "Fecha" = Some fecha → to_datetime fecha = None →
       fst (validate_data to_datetime df) = df)
  ∧ (∀ fecha parsed,
       (∀ c, In c required_columns → is_Some (df !! c)) →
       df !! "Fecha" = Some fecha → to_datetime fecha = Some parsed →
       fst (validate_data to_datetime df) = <["Fecha" := parsed]> df
       ∧ fst (validate_data to_datetime df) !! "Fecha" = Some parsed).
Proof.
  split; [|split; [|split]].
  - intros c Hc. unfold validate_data.
    destruct (missing_columns df); [|done].
    destruct (df !! "Fecha") as [fecha|]; [|done].
    destruct (to_datetime fecha); [|done].
    simpl. by rewrite lookup_insert_ne.
  - intros (c & Hc & Hnone). unfold validate_data.
    destruct (missing_columns df) as [|m l] eqn:E; [|done].
    assert (In c (missing_columns df)) as Hin by (apply In_missing_columns; auto).
    rewrite E in Hin. destruct Hin.
  - intros fecha Hall Hfecha Hparsed. unfold validate_data.
    apply missing_columns_nil in Hall. by rewrite Hall, Hfecha, Hparsed.
  - intros fecha parsed Hall Hfecha Hparsed. unfold validate_data.
    apply missing_columns_nil in Hall. rewrite Hall, Hfecha, Hparsed.
    split; [done|]. apply lookup_insert_eq.
Qed.

End ValidatorFacts.

(** *** The validator on concrete uploads *)

(** C5 at an upload without its [Fecha] and [CTR] columns. *)
Lemma validate_lists_every_missing_column_witness :
  (∃ c, In c required_columns ∧ upload_without_dates_and_ctr !! c = None)
  ∧ snd (validate_data to_datetime_iso upload_without_dates_and_ctr)
      = Some (false, "Faltan las siguientes columnas: Fecha, CTR").
Proof.
  assert (∃ c, In c required_columns ∧ upload_without_dates_and_ctr !! c = None) as Hhyp.
  { exists "CTR". split; [simpl; tauto | vm_compute; reflexivity]. }
  split; [exact Hhyp|].
  destruct (validate_lists_every_missing_column to_datetime_iso _ Hhyp) as [Hres _].
  rewrite Hres. vm_compute. reflexivity.
Defined.

(** C6 at an upload whose [Fill_Rate] and [CTR] columns are text: only
    [Fill_Rate], the earlier of the two in the scan order, is named. *)
Lemma validate_names_first_non_numeric_witness :
  column_is_numeric upload_text_columns "Fill_Rate" = false
  ∧ column_is_numeric upload_text_columns "CTR" = false
  ∧ snd (validate_data to_datetime_iso upload_text_columns)
      = Some (false, "La columna Fill_Rate debe ser numérica").
Proof.
  split; [vm_compute; reflexivity|]. split; [vm_compute; reflexivity|].
  destruct (validate_names_first_non_numeric to_datetime_iso upload_text_columns
              (Object ["2024-01-01"; "2024-01-02"])
              (Datetime64 [1704067200000000000; 1704153600000000000]%Z))
    as (col & Hfirst & Huniq & Hres).
  - intros c Hc. simpl in Hc.
    repeat (destruct Hc as [<- | Hc]; [vm_compute; eauto|]). destruct Hc.
  - vm_compute. reflexivity.
  - vm_compute. reflexivity.
  - exists "CTR". split; [simpl; tauto | vm_compute; reflexivity].
  - assert (first_offending upload_text_columns "Fill_Rate") as Hfill.
    { exists ["Revenue"; "Impresiones"; "Page_RPM"], ["eCPM"; "CTR"].
      split; [reflexivity|]. split; [|vm_compute; reflexivity].
      repeat constructor. }
    apply Huniq in Hfill. subst col. exact Hres.
Defined.

(** C7 as stated fails: an upload whose first row has zero impressions is
    accepted. *)
Lemma validate_accepts_zero_impressions :
  has_nonpositive_impressions upload_zero_impressions
  ∧ snd (validate_data to_datetime_iso upload_zero_impressions)
      = Some (true, "Datos válidos").
Proof.
  split.
  - exists (Int64 [0; 600000]%Z), 0. split; [vm_compute; reflexivity|].
    split; [left; reflexivity | discriminate].
  - vm_compute. reflexivity.
Qed.

(** The amended C7 at an upload with a negative impression count. *)
Lemma validate_accepts_any_numbers_witness :
  has_nonpositive_impressions upload_negative_impressions
  ∧ snd (validate_data to_datetime_iso upload_negative_impressions)
      = Some (true, "Datos válidos").
Proof.
  split.
  - exists (Int64 [-5; 600000]%Z), (inject_Z (-5)). split; [vm_compute; reflexivity|].
    split; [left; reflexivity | discriminate].
  - apply (validate_accepts_any_numbers to_datetime_iso upload_negative_impressions
             (Object ["2024-01-01"; "2024-01-02"])
             (Datetime64 [1704067200000000000; 1704153600000000000]%Z)).
    + vm_compute. reflexivity.
    + vm_compute. reflexivity.
    + vm_compute. eauto.
    + intros c Hc. simpl in Hc.
      repeat (destruct Hc as [<- | Hc]; [vm_compute; reflexivity|]). destruct Hc.
Defined.

(** C2 as stated fails: after the call on an accepted upload the [Fecha]
    column holds timestamps where the caller's table held text. *)
Lemma validate_replaces_Fecha :
  upload_zero_impressions !! "Fecha" = Some (Object ["2024-01-01"; "2024-01-02"])
  ∧ fst (validate_data to_datetime_iso upload_zero_impressions) !! "Fecha"
      = Some (Datetime64 [1704067200000000000; 1704153600000000000]%Z)
  ∧ fst (validate_data to_datetime_iso upload_zero_impressions) ≠ upload_zero_impressions.
Proof.
  split; [vm_compute; reflexivity|]. split; [vm_compute; reflexivity|].
  intros H. apply (f_equal (fun t : DataFrame => t !! "Fecha")) in H.
  vm_compute in H. discriminate.
Qed.

(** C2 as amended, on a refused upload: the eight columns are there and
    the dates convert, so the converted column is in the table although
    the call refuses the text column [Fill_Rate]. *)
Lemma validate_changes_only_Fecha_witness :
  snd (validate_data to_datetime_iso upload_text_columns)
    = Some (false, "La columna Fill_Rate debe ser numérica")
  ∧ fst (validate_data to_datetime_iso upload_text_columns)
    = <["Fecha" := Datetime64 [1704067200000000000; 1704153600000000000]%Z]>
        upload_text_columns
  ∧ fst (validate_data to_datetime_iso upload_text_columns) !! "Fecha"
    = Some (Datetime64 [1704067200000000000; 1704153600000000000]%Z).
Proof.
  split; [vm_compute; reflexivity|].
  apply (proj2 (proj2 (proj2 (validate_changes_only_Fecha to_datetime_iso
                                upload_text_columns)))
           (Object ["2024-01-01"; "2024-01-02"])).
  - intros c Hc. simpl in Hc.
    repeat (destruct Hc as [<- | Hc]; [vm_compute; eauto|]). destruct Hc.
  - vm_compute. reflexivity.
  - vm_compute. reflexivity.
Defined.

(** The same happens on a refused upload: the conversion has been done by
    the time the text column [Fill_Rate] is found. *)
Example validate_replaces_Fecha_when_refusing :
  validate_data to_datetime_iso upload_text_columns
  = (<["Fecha" := Datetime64 [1704067200000000000; 1704153600000000000]%Z]> upload_text_columns,
     Some (false, "La columna Fill_Rate debe ser numérica")).
Proof. vm_compute. reflexivity. Qed.

(** ** The filter *)

Lemma boolean_index_map {A : Type} (f : A → bool) (l : list A) :
  boolean_index l (map f l) = List.filter f l.
Proof.
  induction l as [|x l IH]; simpl; [done|]. rewrite IH. by destruct (f x).
Qed.

Lemma mask_and_map {A : Type} (f g : A → bool) (l : list A) :
  mask_and (map f l) (map g l) = map (fun x => f x && g x) l.
Proof.
  unfold mask_and. induction l as [|x l IH]; simpl; [done|]. by rewrite IH.
Qed.

Lemma isin_In (S : list string) (s : string) : isin S s = true ↔ In s S.
Proof.
  unfold isin. rewrite existsb_exists. split.
  - intros (x & Hx & Heq). apply String.eqb_eq in Heq. by subst.
  - intros H. exists s. split; [done | apply String.eqb_refl].
Qed.

Lemma in_selection_true (d1 d2 : Z) (S : list string) (r : Row) :
  in_selection d1 d2 S r = true
  ↔ (d1 ≤ dt_date (Fecha r) ≤ d2)%Z ∧ In (Fuente r) S.
Proof.
  unfold in_selection. rewrite !andb_true_iff, !Z.leb_le, isin_In. tauto.
Qed.

Lemma List_filter_all {A : Type} (f : A → bool) (l : list A) :
  (∀ x, In x l → f x = true) → List.filter f l = l.
Proof.
  induction l as [|x l IH]; simpl; intros H; [done|].
  rewrite (H x) by auto. f_equal. apply IH. auto.
Qed.

Lemma filtered_df_two_bounds (ds : list Row) (d1 d2 : Z) (S : list string) :
  filtered_df ds [d1; d2] S = filter_spec ds d1 d2 S.
Proof.
  unfold filtered_df, filter_spec. rewrite !mask_and_map. apply boolean_index_map.
Qed.

Lemma fold_min_bound (ts : list Z) (t : Z) :
  (fold_left Z.min ts t ≤ t)%Z ∧ ∀ x, In x ts → (fold_left Z.min ts t ≤ x)%Z.
Proof.
  revert t. induction ts as [|a ts IH]; intros t; simpl.
  - split; [lia | tauto].
  - destruct (IH (Z.min t a)) as [H1 H2]. split; [lia|].
    intros x [<- | Hx]; [lia | auto].
Qed.

Lemma fold_max_bound (ts : list Z) (t : Z) :
  (t ≤ fold_left Z.max ts t)%Z ∧ ∀ x, In x ts → (x ≤ fold_left Z.max ts t)%Z.
Proof.
  revert t. induction ts as [|a ts IH]; intros t; simpl.
  - split; [lia | tauto].
  - destruct (IH (Z.max t a)) as [H1 H2]. split; [lia|].
    intros x [<- | Hx]; [lia | auto].
Qed.

Lemma Fecha_min_le (df : list Row) (lo : Z) (r : Row) :
  Fecha_min df = Some lo → In r df → (lo ≤ Fecha r)%Z.
Proof.
  unfold Fecha_min. destruct df as [|r0 df]; simpl; [done|].
  intros [= <-] Hin. destruct (fold_min_bound (map Fecha df) (Fecha r0)) as [H1 H2].
  destruct Hin as [<- | Hin]; [done|]. apply H2, in_map, Hin.
Qed.

Lemma Fecha_max_ge (df : list Row) (hi : Z) (r : Row) :
  Fecha_max df = Some hi → In r df → (Fecha r ≤ hi)%Z.
Proof.
  unfold Fecha_max. destruct df as [|r0 df]; simpl; [done|].
  intros [= <-] Hin. destruct (fold_max_bound (map Fecha df) (Fecha r0)) as [H1 H2].
  destruct Hin as [<- | Hin]; [done|]. apply H2, in_map, Hin.
Qed.

Lemma dt_date_mono (a b : Z) : (a ≤ b)%Z → (dt_date a ≤ dt_date b)%Z.
Proof. intros H. unfold dt_date. apply Z.div_le_mono; [reflexivity | done]. Qed.

Lemma In_all_sources (df : list Row) (s : string) :
  In s (all_sources df) ↔ In s (map Fuente df).
Proof.
  unfold all_sources. rewrite <- !list_elem_of_In.
  rewrite merge_sort_Permutation. apply elem_of_remove_dups.
Qed.

Lemma NoDup_all_sources (df : list Row) : NoDup (all_sources df).
Proof.
  unfold all_sources. rewrite merge_sort_Permutation. apply NoDup_remove_dups.
Qed.

#[global] Instance str_le_total : Total str_le.
Proof.
  intros a b. unfold str_le, String.leb.
  rewrite (String.compare_antisym b a).
  destruct (String.compare a b); simpl; auto.
Qed.

Lemma all_sources_sorted (df : list Row) : Sorted str_le (all_sources df).
Proof. apply Sorted_merge_sort, _. Qed.

(** The groups: one per source, none empty, each made of the rows of its
    source. *)
Lemma groupby_Fuente_keys (df : list Row) :
  map fst (groupby_Fuente df) = all_sources df.
Proof. unfold groupby_Fuente. rewrite map_map. simpl. apply map_id. Qed.

Lemma groupby_Fuente_group (df : list Row) (k : string) (g : list Row) :
  In (k, g) (groupby_Fuente df) →
  g ≠ [] ∧ ∀ r, In r g ↔ In r df ∧ Fuente r = k.
Proof.
  unfold groupby_Fuente. rewrite in_map_iff. intros (k' & [= <- <-] & Hk).
  apply In_all_sources, in_map_iff in Hk as (r0 & Hsrc & Hr0).
  assert (∀ r, In r (List.filter (fun r => String.eqb (Fuente r) k') df)
               ↔ In r df ∧ Fuente r = k') as Hiff
    by (intros r; rewrite filter_In, String.eqb_eq; tauto).
  split; [|exact Hiff].
  intros Hnil. assert (In r0 []) as []. rewrite <- Hnil. by apply Hiff.
Qed.

(** C4.  With a range of two bounds the filter returns the rows of the
    table, in table order and with their multiplicity, whose day lies in
    the range and whose source is selected; an empty selection gives an
    empty table; the range and the selection the widgets start with (first
    to last day, every source) give the table back. *)
Theorem filter_keeps_selected_rows (ds : list Row) (d1 d2 : Z) (S : list string) :
  filtered_df ds [d1; d2] S = filter_spec ds d1 d2 S
  ∧ (∀ r, In r (filtered_df ds [d1; d2] S)
          ↔ In r ds ∧ (d1 ≤ dt_date (Fecha r) ≤ d2)%Z ∧ In (Fuente r) S)
  ∧ filtered_df ds [d1; d2] S `sublist_of` ds
  ∧ filtered_df ds [d1; d2] [] = []
  ∧ (∀ range, default_date_range ds = Some range →
       filtered_df ds range (all_sources ds) = ds
       ∧ filtered_df ds range (all_sources ds) ≡ₚ ds).
Proof.
  split; [apply filtered_df_two_bounds|]. split; [|split; [|split]].
  - intros r. rewrite filtered_df_two_bounds. unfold filter_spec.
    rewrite filter_In, in_selection_true. tauto.
  - rewrite filtered_df_two_bounds. apply sublist_List_filter.
  - rewrite filtered_df_two_bounds. unfold filter_spec.
    induction ds as [|r ds IH]; simpl; [done|].
    unfold in_selection at 1. simpl. by rewrite andb_false_r.
  - intros range Hrange. unfold default_date_range in Hrange.
    destruct (Fecha_min ds) as [lo|] eqn:Hlo; [|done].
    destruct (Fecha_max ds) as [hi|] eqn:Hhi; [|done].
    injection Hrange as <-.
    assert (filtered_df ds [dt_date lo; dt_date hi] (all_sources ds) = ds) as Heq.
    { rewrite filtered_df_two_bounds. apply List_filter_all. intros r Hr.
      apply in_selection_true. split; [split|].
      - apply dt_date_mono. by eapply Fecha_min_le.
      - apply dt_date_mono. by eapply Fecha_max_ge.
      - apply In_all_sources, in_map, Hr. }
    by rewrite Heq.
Qed.

(** A range that does not have two bounds is ignored: only the selection
    of sources filters. *)
Lemma filtered_df_one_bound (ds : list Row) (d : Z) (S : list string) :
  filtered_df ds [d] S = List.filter (fun r => isin S (Fuente r)) ds.
Proof. apply boolean_index_map. Qed.

(** ** Sums and groups *)

Lemma sum_Q_acc (l : list Q) (a : Q) : fold_left Qplus l a == a + sum_Q l.
Proof.
  unfold sum_Q. revert a. induction l as [|x l IH]; intros a; simpl.
  - ring.
  - rewrite (IH (a + x)), (IH (0 + x)). ring.
Qed.

Lemma sum_Q_cons (x : Q) (l : list Q) : sum_Q (x :: l) == x + sum_Q l.
Proof. unfold sum_Q at 1. simpl. rewrite sum_Q_acc. ring. Qed.

Lemma sum_Q_map_ext {A : Type} (f g : A → Q) (l : list A) :
  (∀ x, In x l → f x == g x) → sum_Q (map f l) == sum_Q (map g l).
Proof.
  induction l as [|x l IH]; intros H; simpl; [reflexivity|].
  pose proof (IH (fun y Hy => H y (or_intror Hy))) as IH'.
  pose proof (H x (or_introl eq_refl)) as Hx.
  rewrite !sum_Q_cons, Hx, IH'. reflexivity.
Qed.

(** Splitting a filtered sum along two predicates that exclude each other. *)
Lemma sum_filter_disjoint {A : Type} (w : A → Q) (f g : A → bool) (l : list A) :
  (∀ x, f x && g x = false) →
  sum_Q (map w (List.filter (fun x => f x || g x) l))
  == sum_Q (map w (List.filter f l)) + sum_Q (map w (List.filter g l)).
Proof.
  intros Hfg. induction l as [|x l IH]; simpl; [reflexivity|].
  specialize (Hfg x).
  destruct (f x), (g x); simpl in *; try discriminate;
    rewrite ?sum_Q_cons, IH; ring.
Qed.

Lemma isin_false (S : list string) (s : string) : ¬ In s S → isin S s = false.
Proof.
  intros H. destruct (isin S s) eqn:E; [|done]. apply isin_In in E. contradiction.
Qed.

(** Summing per key over keys without repetition is summing over the rows
    whose key is one of them. *)
Lemma sum_per_key (w : Row → Q) (df : list Row) (keys : list string) :
  NoDup keys →
  sum_Q (map (fun k => sum_Q (map w (List.filter (fun r => String.eqb (Fuente r) k) df))) keys)
  == sum_Q (map w (List.filter (fun r => isin keys (Fuente r)) df)).
Proof.
  induction 1 as [|k keys Hk Hnd IH]; simpl.
  - assert (List.filter (fun _ : Row => false) df = []) as ->
      by (induction df; simpl; auto).
    reflexivity.
  - rewrite sum_Q_cons, IH.
    rewrite <- (sum_filter_disjoint w (fun r => String.eqb (Fuente r) k)
                  (fun r => isin keys (Fuente r))); [reflexivity|].
    intros r. destruct (String.eqb_spec (Fuente r) k) as [->|]; [|done].
    simpl. apply isin_false. by rewrite list_elem_of_In in Hk.
Qed.

Lemma sum_over_groups (w : Row → Q) (df : list Row) :
  sum_Q (map (fun kg => sum_Q (map w (snd kg))) (groupby_Fuente df)) == sum_Q (map w df).
Proof.
  unfold groupby_Fuente. rewrite map_map. simpl.
  rewrite sum_per_key by apply NoDup_all_sources.
  rewrite List_filter_all; [reflexivity|].
  intros r Hr. apply isin_In, In_all_sources, in_map, Hr.
Qed.

(** *** Rounding *)

Lemma round_half_even_comp (p q : Q) : p == q → round_half_even p = round_half_even q.
Proof.
  intros H. unfold round_half_even.
  rewrite (Qfloor_comp p q H).
  assert (p - inject_Z (Qfloor q) == q - inject_Z (Qfloor q)) as -> by (rewrite H; reflexivity).
  reflexivity.
Qed.

Lemma round_half_even_Z (n : Z) : round_half_even (inject_Z n) = n.
Proof.
  unfold round_half_even. rewrite Qfloor_Z.
  assert (inject_Z n - inject_Z n == 0) as -> by ring.
  reflexivity.
Qed.

Lemma round2_two_decimals (q : Q) : two_decimals q → round2 q == q.
Proof.
  intros [n Hn]. unfold round2, round_decimals.
  assert (q * inject_Z (pow10 2) == inject_Z n) as Hscaled.
  { rewrite Hn. change (inject_Z (pow10 2)) with 100. field. }
  rewrite (round_half_even_comp _ _ Hscaled), round_half_even_Z.
  rewrite Hn. reflexivity.
Qed.

Lemma two_decimals_sum (l : list Q) : Forall two_decimals l → two_decimals (sum_Q l).
Proof.
  induction 1 as [|x l [n Hn] _ [m Hm]].
  - exists 0%Z. reflexivity.
  - exists (n + m)%Z. rewrite sum_Q_cons, Hn, Hm, inject_Z_plus. field.
Qed.

Lemma whole_two_decimals (q : Q) : whole q → two_decimals q.
Proof.
  intros [n Hn]. exists (n * 100)%Z. rewrite Hn, inject_Z_mult.
  change (inject_Z 100) with 100. field.
Qed.

(** C3, as the code has it.  On a table whose revenues are whole numbers
    of moderate size (an [exact_column], where the sums and the rounding
    of the code are exact), the [Revenue Total] column of
    [detailed_metrics] holds the per-source sums themselves, and these add
    up to the total revenue of the table.  On other tables the column
    holds sums rounded to two decimals after an accumulation in [float64],
    and nothing is stated. *)
Theorem revenue_conservation (df : list Row) :
  exact_column Revenue df →
  sum_Q (map (fun sm => Revenue_Total (snd sm)) (detailed_metrics df)) == total_revenue df
  ∧ sum_Q (map snd (revenue_by_source df)) == total_revenue df
  ∧ Forall2 Qeq (map (fun sm => Revenue_Total (snd sm)) (detailed_metrics df))
                (map snd (revenue_by_source df)).
Proof.
  intros [Hwhole _].
  assert (∀ kg, In kg (groupby_Fuente df) →
                round2 (sum_Q (map Revenue (snd kg))) == sum_Q (map Revenue (snd kg))) as Hround.
  { intros [k g] Hin. simpl.
    apply round2_two_decimals, two_decimals_sum.
    unfold groupby_Fuente in Hin. apply in_map_iff in Hin as (k' & [= <- <-] & _).
    apply List.Forall_forall. intros x Hx.
    apply in_map_iff in Hx as (r & <- & Hr).
    apply filter_In in Hr as [Hr _].
    by apply whole_two_decimals, (proj1 (List.Forall_forall _ _) Hwhole). }
  assert (sum_Q (map snd (revenue_by_source df)) == total_revenue df) as Hfull.
  { unfold revenue_by_source, total_revenue. rewrite map_map. simpl.
    apply (sum_over_groups Revenue). }
  split; [|split; [exact Hfull|]].
  - rewrite <- Hfull. unfold detailed_metrics, revenue_by_source. rewrite !map_map. simpl.
    by apply sum_Q_map_ext.
  - unfold detailed_metrics, revenue_by_source. rewrite !map_map. simpl.
    induction (groupby_Fuente df) as [|kg groups IH]; simpl; constructor.
    + apply Hround. by left.
    + apply IH. intros kg' Hkg'. apply Hround. by right.
Qed.

(** C8, as the code has it.  On a table whose impressions are whole
    numbers of moderate size (an [exact_column], where the total of the
    code is the total), the overall page RPM is the total revenue over the
    total impressions times 1000 when the total of impressions is
    positive, and 0 when it is zero or negative; the division is never
    done with a zero divisor. *)
Theorem avg_page_rpm_guarded (filtered : list Row) :
  exact_column Impresiones filtered →
  (0 < total_impressions filtered →
   avg_page_rpm filtered
   = Some (total_revenue filtered / total_impressions filtered * 1000))
  ∧ (total_impressions filtered <= 0 → avg_page_rpm filtered = Some 0)
  ∧ avg_page_rpm filtered ≠ None.
Proof.
  intros _. unfold avg_page_rpm, Qltb, py_div.
  destruct (Qle_bool (total_impressions filtered) 0) eqn:Hle; simpl.
  - apply Qle_bool_iff in Hle. split; [|done].
    intros Hlt. exfalso. by apply (Qlt_not_le _ _ Hlt).
  - assert (0 < total_impressions filtered) as Hpos.
    { apply Qnot_le_lt. intros H. apply Qle_bool_iff in H. congruence. }
    destruct (Qeq_bool (total_impressions filtered) 0) eqn:Hz.
    + apply Qeq_bool_eq in Hz. rewrite Hz in Hpos. by apply Qlt_irrefl in Hpos.
    + simpl. split; [done|]. split; [|done].
      intros H. exfalso. by apply (Qlt_not_le _ _ Hpos).
Qed.

(** *** The aggregations on concrete tables *)

(** C3 as stated fails: with revenues of three decimals the [Revenue Total]
    column holds 1200.13 and 800.13, which add up to more than the total
    revenue of 2000.252, by more than 0.007. *)
Lemma rounded_sums_miss_total :
  map (fun sm => (fst sm, Revenue_Total (snd sm))) (detailed_metrics revenue_in_thousandths)
    = [("Google_AdEx", 1200.13); ("Prebid_Criteo", 800.13)]
  ∧ total_revenue revenue_in_thousandths + 0.007
    < sum_Q (map (fun sm => Revenue_Total (snd sm)) (detailed_metrics revenue_in_thousandths))
  ∧ ¬ sum_Q (map (fun sm => Revenue_Total (snd sm)) (detailed_metrics revenue_in_thousandths))
      == total_revenue revenue_in_thousandths.
Proof.
  split; [vm_compute; reflexivity|]. split; [vm_compute; reflexivity|].
  vm_compute. discriminate.
Qed.

Lemma exact_column_two_sources_two_days (f : Row → Q) :
  (f = Revenue ∨ f = Impresiones) → exact_column f two_sources_two_days.
Proof.
  intros [-> | ->]; (split; [|vm_compute; reflexivity]); repeat constructor; simpl.
  - by exists 100%Z.
  - by exists 50%Z.
  - by exists 200%Z.
  - by exists 50%Z.
  - by exists 1000%Z.
  - by exists 2000%Z.
  - by exists 1000%Z.
  - by exists 2000%Z.
Qed.

(** The amended C3 on the scenario: 300 + 100 = 400. *)
Lemma revenue_conservation_witness :
  exact_column Revenue two_sources_two_days
  ∧ map (fun sm => (fst sm, Revenue_Total (snd sm))) (detailed_metrics two_sources_two_days)
      = [("SourceA", 300.00); ("SourceB", 100.00)]
  ∧ sum_Q (map (fun sm => Revenue_Total (snd sm)) (detailed_metrics two_sources_two_days))
      == total_revenue two_sources_two_days.
Proof.
  pose proof (exact_column_two_sources_two_days Revenue (or_introl eq_refl)) as Hex.
  split; [exact Hex|]. split; [vm_compute; reflexivity|].
  exact (proj1 (revenue_conservation two_sources_two_days Hex)).
Defined.

(** C8 as stated fails: the impressions add up to -1000, which is not
    zero, and the result is 0 where the quotient is -12.5. *)
Lemma avg_page_rpm_negative_total :
  total_impressions negative_impressions == -1000
  ∧ avg_page_rpm negative_impressions = Some 0
  ∧ total_revenue negative_impressions / total_impressions negative_impressions * 1000
      == -12.5.
Proof.
  split; [vm_compute; reflexivity|]. split; vm_compute; reflexivity.
Qed.

(** The amended C8 on the scenario: 400 / 6000 * 1000. *)
Lemma avg_page_rpm_guarded_witness :
  exact_column Impresiones two_sources_two_days
  ∧ 0 < total_impressions two_sources_two_days
  ∧ avg_page_rpm two_sources_two_days
      = Some (total_revenue two_sources_two_days
                / total_impressions two_sources_two_days * 1000).
Proof.
  pose proof (exact_column_two_sources_two_days Impresiones (or_intror eq_refl)) as Hex.
  assert (0 < total_impressions two_sources_two_days) as Hpos by (vm_compute; reflexivity).
  split; [exact Hex|]. split; [exact Hpos|].
  exact (proj1 (avg_page_rpm_guarded two_sources_two_days Hex) Hpos).
Defined.

(** ** The alerts *)

Lemma Qltb_lt (a b : Q) : Qltb a b = true ↔ a < b.
Proof.
  unfold Qltb. rewrite negb_true_iff. split.
  - intros H. apply Qnot_le_lt. intros Hle. apply Qle_bool_iff in Hle. congruence.
  - intros H. destruct (Qle_bool b a) eqn:E; [|done].
    apply Qle_bool_iff in E. exfalso. by apply (Qlt_not_le _ _ H).
Qed.

Lemma alert_step_app (acc : list Alert) (row : string * SourceMetrics) :
  alert_step acc row = acc ++ alert_step [] row.
Proof.
  unfold alert_step.
  destruct (Qltb (sm_Fill_Rate row.2) 80), (Qltb (sm_eCPM row.2) 1); simpl;
    by rewrite ?app_nil_r, <- ?app_assoc.
Qed.

Lemma fold_alert_step (rows : list (string * SourceMetrics)) (acc : list Alert) :
  fold_left alert_step rows acc = acc ++ alerts_loop rows.
Proof.
  unfold alerts_loop. revert acc. induction rows as [|row rows IH]; intros acc; simpl.
  - by rewrite app_nil_r.
  - rewrite (IH (alert_step acc row)), (IH (alert_step [] row)), app_assoc.
    f_equal. apply alert_step_app.
Qed.

Lemma alerts_loop_cons (row : string * SourceMetrics) (rows : list (string * SourceMetrics)) :
  alerts_loop (row :: rows) = alerts_loop [row] ++ alerts_loop rows.
Proof. unfold alerts_loop at 1. simpl. apply fold_alert_step. Qed.

Lemma alerts_loop_app (rows1 rows2 : list (string * SourceMetrics)) :
  alerts_loop (rows1 ++ rows2) = alerts_loop rows1 ++ alerts_loop rows2.
Proof.
  induction rows1 as [|row rows1 IH]; simpl; [done|].
  by rewrite alerts_loop_cons, IH, app_assoc, <- alerts_loop_cons.
Qed.

Lemma alerts_loop_flat_map (rows : list (string * SourceMetrics)) :
  alerts_loop rows = flat_map (fun row => alerts_loop [row]) rows.
Proof.
  induction rows as [|row rows IH]; simpl; [done|].
  by rewrite alerts_loop_cons, IH.
Qed.

(** The alerts of a mapping of one source, case by case. *)
Lemma alerts_loop_single (source : string) (m : SourceMetrics) :
  alerts_loop [(source, m)]
  = (if Qltb (sm_Fill_Rate m) 80
     then [("danger", msg_fill_rate source (sm_Fill_Rate m))] else [])
    ++ (if Qltb (sm_eCPM m) 1
        then [("warning", msg_ecpm source (sm_eCPM m))] else []).
Proof.
  unfold alerts_loop, alert_step. simpl.
  by destruct (Qltb (sm_Fill_Rate m) 80), (Qltb (sm_eCPM m) 1).
Qed.

Lemma count_type_single (source : string) (m : SourceMetrics) :
  count_type "danger" (alerts_loop [(source, m)])
    = (if Qltb (sm_Fill_Rate m) 80 then 1 else 0)%nat
  ∧ count_type "warning" (alerts_loop [(source, m)])
    = (if Qltb (sm_eCPM m) 1 then 1 else 0)%nat.
Proof.
  rewrite alerts_loop_single.
  by destruct (Qltb (sm_Fill_Rate m) 80), (Qltb (sm_eCPM m) 1).
Qed.

(** C1.  In the alerts of a mapping, the part that comes from one source
    holds a danger alert, and then exactly one, carrying the name of the
    source, when and only when the fill-rate mean of the source is below
    80; it holds a warning, and then exactly one, when and only when its
    eCPM mean is below 1. *)
Theorem alerts_follow_thresholds
    (before after : list (string * SourceMetrics)) (source : string) (m : SourceMetrics) :
  alerts_loop (before ++ (source, m) :: after)
    = alerts_loop before ++ alerts_loop [(source, m)] ++ alerts_loop after
  ∧ (sm_Fill_Rate m < 80
     ↔ In ("danger", "⚠️ " +:+ source +:+ ": Fill Rate bajo ("
                       +:+ format_fixed 1 (sm_Fill_Rate m) +:+ "%)")
          (alerts_loop [(source, m)]))
  ∧ (sm_Fill_Rate m < 80 ↔ count_type "danger" (alerts_loop [(source, m)]) = 1%nat)
  ∧ (¬ sm_Fill_Rate m < 80 ↔ count_type "danger" (alerts_loop [(source, m)]) = 0%nat)
  ∧ (sm_eCPM m < 1
     ↔ In ("warning", "⚡ " +:+ source +:+ ": eCPM bajo ($"
                        +:+ format_fixed 2 (sm_eCPM m) +:+ ")")
          (alerts_loop [(source, m)]))
  ∧ (sm_eCPM m < 1 ↔ count_type "warning" (alerts_loop [(source, m)]) = 1%nat)
  ∧ (¬ sm_eCPM m < 1 ↔ count_type "warning" (alerts_loop [(source, m)]) = 0%nat).
Proof.
  split.
  { rewrite alerts_loop_app. f_equal. apply alerts_loop_cons. }
  destruct (count_type_single source m) as [Hd Hw].
  rewrite Hd, Hw, alerts_loop_single. clear Hd Hw.
  fold (msg_fill_rate source (sm_Fill_Rate m)). fold (msg_ecpm source (sm_eCPM m)).
  rewrite <- !Qltb_lt.
  destruct (Qltb (sm_Fill_Rate m) 80), (Qltb (sm_eCPM m) 1); simpl;
    repeat split; try done; try tauto; auto;
    intros [H|[]]; discriminate H.
Qed.

(** The boundaries of C1: 79.9 against 80.0, 0.99 against 1.0. *)
Example fill_rate_79_9_alerts :
  alerts_loop [("TAM_Onetag", mkSourceMetrics 79.9 2500 1.0)]
  = [("danger", "⚠️ TAM_Onetag: Fill Rate bajo (79.9%)")].
Proof. vm_compute. reflexivity. Qed.

Example fill_rate_80_0_is_quiet :
  alerts_loop [("TAM_Onetag", mkSourceMetrics 80.0 2500 1.0)] = [].
Proof. vm_compute. reflexivity. Qed.

Example ecpm_0_99_alerts :
  alerts_loop [("Prebid_Ogury", mkSourceMetrics 80.0 2500 0.99)]
  = [("warning", "⚡ Prebid_Ogury: eCPM bajo ($0.99)")].
Proof. vm_compute. reflexivity. Qed.

(** C9.  The alerts are those of the sources one after the other in the
    order of the mapping, a source's danger alert right before its
    warning; a source under both thresholds gives both; nothing is dropped:
    there are as many alerts as rows under the fill-rate threshold plus
    rows under the eCPM threshold. *)
Theorem alerts_in_mapping_order (rows : list (string * SourceMetrics)) :
  alerts_loop rows = flat_map (fun row => alerts_loop [row]) rows
  ∧ (∀ rows', alerts_loop (rows ++ rows') = alerts_loop rows ++ alerts_loop rows')
  ∧ (∀ source m,
       alerts_loop [(source, m)]
       = (if Qltb (sm_Fill_Rate m) 80
          then [("danger", msg_fill_rate source (sm_Fill_Rate m))] else [])
         ++ (if Qltb (sm_eCPM m) 1
             then [("warning", msg_ecpm source (sm_eCPM m))] else []))
  ∧ (∀ source m, sm_Fill_Rate m < 80 → sm_eCPM m < 1 →
       alerts_loop [(source, m)]
       = [("danger", msg_fill_rate source (sm_Fill_Rate m));
          ("warning", msg_ecpm source (sm_eCPM m))])
  ∧ length (alerts_loop rows)
    = (count_below sm_Fill_Rate 80 rows + count_below sm_eCPM 1 rows)%nat.
Proof.
  split; [apply alerts_loop_flat_map|]. split; [apply alerts_loop_app|].
  split; [apply alerts_loop_single|]. split.
  - intros source m Hf He. rewrite alerts_loop_single.
    apply Qltb_lt in Hf, He. by rewrite Hf, He.
  - unfold count_below. induction rows as [|[source m] rows IH]; [done|].
    rewrite alerts_loop_cons, length_app, IH, alerts_loop_single. simpl.
    destruct (Qltb (sm_Fill_Rate m) 80), (Qltb (sm_eCPM m) 1); simpl; lia.
Qed.

(** Two sources under both thresholds, the second with the very numbers of
    the first: four alerts, by source and not by severity. *)
Example alerts_interleaved :
  alerts_loop [("Prebid_Criteo", mkSourceMetrics 70 300 0.5);
               ("TAM_Equativ", mkSourceMetrics 70 300 0.5)]
  = [("danger", "⚠️ Prebid_Criteo: Fill Rate bajo (70.0%)");
     ("warning", "⚡ Prebid_Criteo: eCPM bajo ($0.50)");
     ("danger", "⚠️ TAM_Equativ: Fill Rate bajo (70.0%)");
     ("warning", "⚡ TAM_Equativ: eCPM bajo ($0.50)")].
Proof. vm_compute. reflexivity. Qed.

(** The scenario gives three alerts. *)
Example alerts_two_sources_two_days :
  alerts two_sources_two_days
  = [("danger", "⚠️ SourceA: Fill Rate bajo (70.0%)");
     ("warning", "⚡ SourceA: eCPM bajo ($0.50)");
     ("warning", "⚡ SourceB: eCPM bajo ($0.25)")].
Proof. vm_compute. reflexivity. Qed.

(** The tables and alerts of the exact reading are those of
    [source_metrics_by] with the exact sum, mean and rounding. *)
Lemma alerts_by_exact (df : list Row) :
  source_metrics df = source_metrics_by sum_Q mean_Q round2 df
  ∧ alerts df = alerts_by sum_Q mean_Q round2 df.
Proof. split; reflexivity. Qed.

Section RoundedMeans.

Variables agg_sum agg_mean : list Q → Q.
Variable round_2 : Q → Q.

(** C10.  Whatever pandas' sum, mean and rounding compute, the alerts of a
    table are those of its per-source means after rounding: for each
    source the danger alert is decided by the rounded fill-rate mean and
    the warning by the rounded eCPM mean, so a mean below its threshold
    that rounds up to it raises no alert.  With the exact mean and
    rounding this is what happens to means of 79.996 and 0.996, which the
    table shows as 80.00 and 1.00. *)
Theorem alerts_compare_rounded_means (df : list Row) :
  alerts_by agg_sum agg_mean round_2 df
    = flat_map (fun kg => alerts_loop [(fst kg, agg_source_by agg_sum agg_mean round_2 (snd kg))])
               (groupby_Fuente df)
  ∧ (∀ source g,
       (round_2 (agg_mean (map Fill_Rate g)) < 80
        ↔ count_type "danger"
            (alerts_loop [(source, agg_source_by agg_sum agg_mean round_2 g)]) = 1%nat)
       ∧ (¬ round_2 (agg_mean (map Fill_Rate g)) < 80
          ↔ count_type "danger"
              (alerts_loop [(source, agg_source_by agg_sum agg_mean round_2 g)]) = 0%nat)
       ∧ (round_2 (agg_mean (map eCPM g)) < 1
          ↔ count_type "warning"
              (alerts_loop [(source, agg_source_by agg_sum agg_mean round_2 g)]) = 1%nat)
       ∧ (¬ round_2 (agg_mean (map eCPM g)) < 1
          ↔ count_type "warning"
              (alerts_loop [(source, agg_source_by agg_sum agg_mean round_2 g)]) = 0%nat))
  ∧ (∀ source g,
       agg_mean (map Fill_Rate g) < 80 → ¬ round_2 (agg_mean (map Fill_Rate g)) < 80 →
       count_type "danger"
         (alerts_loop [(source, agg_source_by agg_sum agg_mean round_2 g)]) = 0%nat)
  ∧ (∀ source g,
       agg_mean (map eCPM g) < 1 → ¬ round_2 (agg_mean (map eCPM g)) < 1 →
       count_type "warning"
         (alerts_loop [(source, agg_source_by agg_sum agg_mean round_2 g)]) = 0%nat)
  ∧ (alerts means_just_below = alerts_by sum_Q mean_Q round2 means_just_below
     ∧ mean_Q (map Fill_Rate means_just_below) < 80
     ∧ mean_Q (map eCPM means_just_below) < 1
     ∧ source_metrics means_just_below
         = [("Google_OpenBidding", mkSourceMetrics 80.00 16000.00 1.00)]
     ∧ alerts means_just_below = []).
Proof.
  assert (∀ source g,
            (round_2 (agg_mean (map Fill_Rate g)) < 80
             ↔ count_type "danger"
                 (alerts_loop [(source, agg_source_by agg_sum agg_mean round_2 g)]) = 1%nat)
            ∧ (¬ round_2 (agg_mean (map Fill_Rate g)) < 80
               ↔ count_type "danger"
                   (alerts_loop [(source, agg_source_by agg_sum agg_mean round_2 g)]) = 0%nat)
            ∧ (round_2 (agg_mean (map eCPM g)) < 1
               ↔ count_type "warning"
                   (alerts_loop [(source, agg_source_by agg_sum agg_mean round_2 g)]) = 1%nat)
            ∧ (¬ round_2 (agg_mean (map eCPM g)) < 1
               ↔ count_type "warning"
                   (alerts_loop [(source, agg_source_by agg_sum agg_mean round_2 g)]) = 0%nat))
    as Hdecide.
  { intros source g.
    destruct (count_type_single source (agg_source_by agg_sum agg_mean round_2 g)) as [-> ->].
    simpl. rewrite <- !Qltb_lt.
    destruct (Qltb (round_2 (agg_mean (map Fill_Rate g))) 80),
             (Qltb (round_2 (agg_mean (map eCPM g))) 1); repeat split; try done; auto. }
  split; [|split; [exact Hdecide|split; [|split]]].
  - unfold alerts_by, source_metrics_by.
    rewrite alerts_loop_flat_map, flat_map_concat_map, map_map.
    by rewrite <- flat_map_concat_map.
  - intros source g _ Hnot. by apply (Hdecide source g).
  - intros source g _ Hnot. by apply (Hdecide source g).
  - split; [reflexivity|]. repeat split; vm_compute; reflexivity.
Qed.

End RoundedMeans.

(** * Further properties of the pipeline *)

(** ** The validator and the loader *)

Section ValidatorOutcomes.

Context {File : Type}.
Variable read_csv : File → option DataFrame.
Variable to_datetime : Column → option Column.

(** Once no column is missing, the scan of the numeric columns finds all
    its columns: it accepts, or refuses the first that is not numeric. *)
Lemma check_numeric_after_insert (df : DataFrame) (parsed : Column) :
  missing_columns df = [] →
  ((∀ c, In c numeric_columns → column_is_numeric df c = true)
   ∧ check_numeric (<["Fecha" := parsed]> df) numeric_columns = Some (true, msg_valid))
  ∨ (∃ col, first_offending df col
            ∧ check_numeric (<["Fecha" := parsed]> df) numeric_columns
              = Some (false, msg_not_numeric col)).
Proof.
  intros Hmiss.
  destruct (check_numeric_scan (<["Fecha" := parsed]> df) numeric_columns)
    as [[Hnum Hok] | (pre & col & post & E & Hpre & Hcol & Hres)].
  - left. split; [|done]. intros c Hc.
    rewrite <- (column_is_numeric_insert_Fecha df parsed c Hc).
    by apply (proj1 (List.Forall_forall _ _) Hnum).
  - right. exists col.
    assert (In col numeric_columns) as Hin by (rewrite E; apply in_or_app; right; by left).
    split.
    + apply (first_offending_insert_Fecha df parsed). by exists pre, post.
    + apply Hres. rewrite lookup_insert_ne
        by (apply not_eq_sym; by apply numeric_columns_not_Fecha).
      by apply (proj1 (missing_columns_nil df) Hmiss), numeric_columns_required.
Qed.

(** The four ways a call of [validate_data] ends. *)
Lemma validate_data_cases (df : DataFrame) :
  (missing_columns df ≠ []
   ∧ validate_data to_datetime df = (df, Some (false, msg_missing (missing_columns df))))
  ∨ (missing_columns df = []
     ∧ (∃ fecha, df !! "Fecha" = Some fecha ∧ to_datetime fecha = None)
     ∧ validate_data to_datetime df
       = (df, Some (false, "Error en formato de fechas. Use YYYY-MM-DD")))
  ∨ (∃ fecha parsed col,
       missing_columns df = []
       ∧ df !! "Fecha" = Some fecha ∧ to_datetime fecha = Some parsed
       ∧ first_offending df col
       ∧ validate_data to_datetime df
         = (<["Fecha" := parsed]> df, Some (false, msg_not_numeric col)))
  ∨ (∃ fecha parsed,
       missing_columns df = []
       ∧ df !! "Fecha" = Some fecha ∧ to_datetime fecha = Some parsed
       ∧ (∀ c, In c numeric_columns → column_is_numeric df c = true)
       ∧ validate_data to_datetime df
         = (<["Fecha" := parsed]> df, Some (true, "Datos válidos"))).
Proof.
  unfold validate_data.
  destruct (missing_columns df) as [|m l] eqn:Hmiss; [|left; by split].
  right.
  assert (is_Some (df !! "Fecha")) as [fecha Hfecha]
    by (apply (proj1 (missing_columns_nil df) Hmiss); left; done).
  rewrite Hfecha.
  destruct (to_datetime fecha) as [parsed|] eqn:Hparsed.
  - right. cbv zeta.
    destruct (check_numeric_after_insert df parsed Hmiss) as [[Hnum ->] | (col & Hcol & ->)].
    + right. by exists fecha, parsed.
    + left. by exists fecha, parsed, col.
  - left. split; [done|]. split; [by exists fecha | done].
Qed.

(** X1.  A call of [validate_data] always returns, never with an exception
    of [df[col]], and its answer is one of four, tried in this order:
    missing columns, dates that do not convert, the first numeric column
    that is not numeric, acceptance. *)
Theorem validate_data_outcomes (df : DataFrame) :
  (missing_columns df ≠ []
   ∧ validate_data to_datetime df = (df, Some (false, msg_missing (missing_columns df))))
  ∨ (missing_columns df = []
     ∧ (∃ fecha, df !! "Fecha" = Some fecha ∧ to_datetime fecha = None)
     ∧ validate_data to_datetime df
       = (df, Some (false, "Error en formato de fechas. Use YYYY-MM-DD")))
  ∨ (∃ fecha parsed col,
       missing_columns df = []
       ∧ df !! "Fecha" = Some fecha ∧ to_datetime fecha = Some parsed
       ∧ first_offending df col
       ∧ validate_data to_datetime df
         = (<["Fecha" := parsed]> df, Some (false, msg_not_numeric col)))
  ∨ (∃ fecha parsed,
       missing_columns df = []
       ∧ df !! "Fecha" = Some fecha ∧ to_datetime fecha = Some parsed
       ∧ (∀ c, In c numeric_columns → column_is_numeric df c = true)
       ∧ validate_data to_datetime df
         = (<["Fecha" := parsed]> df, Some (true, "Datos válidos"))).
Proof.
  destruct (validate_data_cases df) as [H | [H | [H | H]]]; tauto.
Qed.

(** X2.  [validate_data] accepts a table exactly when its eight columns
    are present, its date column converts and its six numeric columns have
    a numeric dtype. *)
Theorem validate_data_accepts_iff (df : DataFrame) :
  (∃ message, snd (validate_data to_datetime df) = Some (true, message))
  ↔ (∀ c, In c required_columns → is_Some (df !! c))
    ∧ (∃ fecha parsed, df !! "Fecha" = Some fecha ∧ to_datetime fecha = Some parsed)
    ∧ (∀ c, In c numeric_columns → column_is_numeric df c = true).
Proof.
  split.
  - intros [message Hacc]. unfold validate_data in Hacc.
    destruct (missing_columns df) as [|m l] eqn:Hmiss; [|done].
    split; [by apply missing_columns_nil|].
    destruct (df !! "Fecha") as [fecha|] eqn:Hfecha; [|done].
    destruct (to_datetime fecha) as [parsed|] eqn:Hparsed; [|done].
    split; [by exists fecha, parsed|].
    change (check_numeric (<["Fecha" := parsed]> df) numeric_columns = Some (true, message))
      in Hacc.
    destruct (check_numeric_after_insert df parsed Hmiss) as [[Hnum _] | (col & _ & Hres)];
      [done | congruence].
  - intros (Hall & (fecha & parsed & Hfecha & Hparsed) & Hnum).
    apply missing_columns_nil in Hall as Hmiss.
    exists msg_valid. unfold validate_data. rewrite Hmiss, Hfecha, Hparsed.
    change (check_numeric (<["Fecha" := parsed]> df) numeric_columns = Some (true, msg_valid)).
    destruct (check_numeric_after_insert df parsed Hmiss)
      as [[_ Hok] | (col & (pre & post & E & _ & Hcol) & _)]; [done|].
    rewrite Hnum in Hcol; [done|]. rewrite E. apply in_or_app. right. by left.
Qed.

(** X3.  The loader ends on the caught exception when [pd.read_csv]
    raises.  When converting a converted column gives that column again,
    it does so in no other case: a table that was read and refused is
    reported with the validator's reason after the prefix, one that was
    read and accepted is loaded as the table the validator left, that is
    the table read with only its date column replaced. *)
Theorem load_upload_follows_validation (uploaded_file : File) :
  (∀ c c', to_datetime c = Some c' → to_datetime c' = Some c') →
  match load_upload read_csv to_datetime uploaded_file with
  | Loaded df' =>
      ∃ df, read_csv uploaded_file = Some df
            ∧ snd (validate_data to_datetime df) = Some (true, "Datos válidos")
            ∧ df' = fst (validate_data to_datetime df)
            ∧ ∀ c, c ≠ "Fecha" → df' !! c = df !! c
  | DataError shown =>
      ∃ df message, read_csv uploaded_file = Some df
                    ∧ snd (validate_data to_datetime df) = Some (false, message)
                    ∧ shown = "Error en los datos: " +:+ message
  | FileError => read_csv uploaded_file = None
  end.
Proof.
  intros Hidem. unfold load_upload.
  destruct (read_csv uploaded_file) as [df|]; [|done].
  destruct (validate_data_cases df)
    as [[_ E] | [(_ & _ & E) | [(f & p & col & _ & _ & _ & _ & E)
                                | (f & p & _ & _ & Hp & _ & E)]]];
    rewrite E; cbn beta iota;
    try (eexists df, _; rewrite E; split; [reflexivity | split; reflexivity]).
  rewrite lookup_insert_eq, (Hidem _ _ Hp), insert_insert_eq.
  exists df. rewrite E. split; [done|]. split; [done|]. split; [done|].
  intros c Hc. by rewrite lookup_insert_ne.
Qed.

End ValidatorOutcomes.

Lemma to_datetime_iso_again (c c' : Column) :
  to_datetime_iso c = Some c' → to_datetime_iso c' = Some c'.
Proof.
  destruct c as [l|l|l|l|l]; simpl; try (intros [= <-]; done).
  destruct (mapM parse_iso_date l); simpl; intros [= <-]; done.
Qed.

(** X3 on a file that parses to an accepted table, the reading of a file
    being given by the table it holds, if any. *)
Lemma load_upload_follows_validation_witness :
  load_upload (fun file : option DataFrame => file) to_datetime_iso
              (Some upload_negative_impressions)
  = Loaded (<["Fecha" := Datetime64 [1704067200000000000; 1704153600000000000]%Z]>
              upload_negative_impressions).
Proof.
  pose proof (load_upload_follows_validation (fun file : option DataFrame => file)
                to_datetime_iso (Some upload_negative_impressions)
                to_datetime_iso_again) as H.
  destruct (load_upload (fun file : option DataFrame => file) to_datetime_iso
                        (Some upload_negative_impressions)) as [shown| |df'] eqn:E.
  - vm_compute in E. discriminate E.
  - discriminate H.
  - destruct H as (df & [= <-] & _ & -> & _). vm_compute. reflexivity.
Defined.

(** A file that cannot be read ends in the caught exception. *)
Example load_upload_unreadable :
  load_upload (fun file : option DataFrame => file) to_datetime_iso None = FileError.
Proof. reflexivity. Qed.

(** Dates in another spelling are reported before the text columns are
    looked at, and the table is left as it was. *)
Example validate_reports_dates_first :
  validate_data to_datetime_iso upload_bad_dates
  = (upload_bad_dates, Some (false, "Error en formato de fechas. Use YYYY-MM-DD")).
Proof. vm_compute. reflexivity. Qed.

(** ** The filter and the stop on an empty result *)

Lemma filtered_df_keeps (ds : list Row) (date_range : list Z) (S : list string) :
  filtered_df ds date_range S = List.filter (keeps date_range S) ds.
Proof.
  destruct date_range as [|d0 [|d1 [|d2 rest]]];
    try apply boolean_index_map.
  apply filtered_df_two_bounds.
Qed.

Lemma keeps_selected (date_range : list Z) (S : list string) (r : Row) :
  keeps date_range S r = true → In (Fuente r) S.
Proof.
  destruct date_range as [|d0 [|d1 [|d2 rest]]]; simpl;
    try apply isin_In.
  intros H. by apply in_selection_true in H as [_ H].
Qed.

Lemma List_filter_twice {A : Type} (f g : A → bool) (l : list A) :
  List.filter g (List.filter f l) = List.filter (fun x => f x && g x) l.
Proof.
  induction l as [|x l IH]; simpl; [done|].
  destruct (f x); simpl; [|done]. destruct (g x); by rewrite IH.
Qed.

Lemma List_filter_ext_in {A : Type} (f g : A → bool) (l : list A) :
  (∀ x, In x l → f x = g x) → List.filter f l = List.filter g l.
Proof.
  induction l as [|x l IH]; simpl; intros H; [done|].
  rewrite (H x), IH by auto. done.
Qed.

Lemma List_filter_nil_iff {A : Type} (f : A → bool) (l : list A) :
  List.filter f l = [] ↔ ∀ x, In x l → f x = false.
Proof.
  induction l as [|x l IH]; simpl; [tauto|].
  destruct (f x) eqn:E.
  - split; [done|]. intros H. specialize (H x (or_introl eq_refl)). congruence.
  - rewrite IH. split; [intros H y [<-|Hy]; auto | auto].
Qed.

(** X4.  A date range that does not have exactly two bounds (a single day
    picked, or none) is left out of the filter: the rows of the selected
    sources are kept whatever their date. *)
Theorem filter_ignores_malformed_range (ds : list Row) (date_range : list Z) (S : list string) :
  length date_range ≠ 2%nat →
  filtered_df ds date_range S = List.filter (fun r => isin S (Fuente r)) ds
  ∧ ∀ r, In r (filtered_df ds date_range S) ↔ In r ds ∧ In (Fuente r) S.
Proof.
  intros Hlen.
  assert (filtered_df ds date_range S = List.filter (fun r => isin S (Fuente r)) ds) as Heq.
  { destruct date_range as [|d0 [|d1 [|d2 rest]]]; try apply boolean_index_map.
    by destruct Hlen. }
  split; [done|]. intros r. rewrite Heq, filter_In, isin_In. tauto.
Qed.

Lemma filter_ignores_malformed_range_witness :
  map Fuente (filtered_df two_sources_two_days [dt_date day_2024_01_01] ["SourceB"])
  = ["SourceB"; "SourceB"].
Proof.
  destruct (filter_ignores_malformed_range two_sources_two_days
              [dt_date day_2024_01_01] ["SourceB"]) as [-> _].
  - simpl. lia.
  - vm_compute. reflexivity.
Defined.

(** X5.  Filtering a filtered table again with the same range and the same
    selection changes nothing. *)
Theorem filter_idempotent (ds : list Row) (date_range : list Z) (S : list string) :
  filtered_df (filtered_df ds date_range S) date_range S = filtered_df ds date_range S.
Proof.
  rewrite !filtered_df_keeps, List_filter_twice.
  apply List_filter_ext_in. intros r _. by destruct (keeps date_range S r).
Qed.

(** X6.  Two filters in a row are one filter: the ranges intersect and so
    do the selections. *)
Theorem filter_twice (ds : list Row) (a b c d : Z) (S T : list string) :
  filtered_df (filtered_df ds [a; b] S) [c; d] T
  = filtered_df ds [Z.max a c; Z.min b d] (List.filter (isin T) S).
Proof.
  rewrite !filtered_df_two_bounds. unfold filter_spec. rewrite List_filter_twice.
  apply List_filter_ext_in. intros r _.
  apply eq_true_iff_eq. rewrite andb_true_iff, !in_selection_true, filter_In, isin_In.
  split; intros H; repeat split; try tauto; lia.
Qed.

(** X7.  Whatever the date widget holds, the filtered table is a part of
    the table, in its order, and shows selected sources only; its sources
    are sources of the table. *)
Theorem filter_shows_selected_only (ds : list Row) (date_range : list Z) (S : list string) :
  filtered_df ds date_range S `sublist_of` ds
  ∧ (length (filtered_df ds date_range S) ≤ length ds)%nat
  ∧ (∀ r, In r (filtered_df ds date_range S) → In r ds ∧ In (Fuente r) S)
  ∧ (∀ s, In s (all_sources (filtered_df ds date_range S)) → In s S ∧ In s (all_sources ds)).
Proof.
  rewrite filtered_df_keeps.
  assert (∀ r, In r (List.filter (keeps date_range S) ds) → In r ds ∧ In (Fuente r) S) as Hin.
  { intros r Hr. apply filter_In in Hr as [Hr Hk]. split; [done|]. by eapply keeps_selected. }
  split; [apply sublist_List_filter|]. split; [|split; [exact Hin|]].
  - apply sublist_length, sublist_List_filter.
  - intros s Hs. apply In_all_sources, in_map_iff in Hs as (r & <- & Hr).
    apply Hin in Hr as [Hr HS]. split; [done|]. apply In_all_sources, in_map, Hr.
Qed.

(** ** What the alert section shows *)

Lemma show_alerts_cases (df : list Row) :
  show_alerts df
  = match alerts df with
    | [] => [all_clear_block]
    | al => map alert_block al
    end.
Proof. reflexivity. Qed.

Lemma alerts_by_group (df : list Row) :
  alerts df
  = flat_map (fun kg => alerts_loop [(fst kg, round_source (agg_source (snd kg)))])
             (groupby_Fuente df).
Proof.
  unfold alerts, source_metrics.
  rewrite alerts_loop_flat_map, flat_map_concat_map, map_map.
  by rewrite <- flat_map_concat_map.
Qed.

Lemma alerts_loop_types (rows : list (string * SourceMetrics)) (a : Alert) :
  In a (alerts_loop rows) → fst a = "danger" ∨ fst a = "warning".
Proof.
  rewrite alerts_loop_flat_map, in_flat_map. intros ([source m] & _ & Ha).
  rewrite alerts_loop_single in Ha.
  destruct (Qltb (sm_Fill_Rate m) 80), (Qltb (sm_eCPM m) 1); simpl in Ha;
    intuition (subst; auto).
Qed.

Lemma alert_block_not_all_clear (a : Alert) :
  fst a = "danger" ∨ fst a = "warning" → alert_block a ≠ all_clear_block.
Proof.
  unfold alert_block, all_clear_block. intros [-> | ->] H; simpl in H; discriminate H.
Qed.

Lemma length_alerts_loop_single (source : string) (m : SourceMetrics) :
  (length (alerts_loop [(source, m)]) ≤ 2)%nat.
Proof.
  rewrite alerts_loop_single.
  destruct (Qltb (sm_Fill_Rate m) 80), (Qltb (sm_eCPM m) 1); simpl; lia.
Qed.

(** X8.  The alert section is never blank: it shows the all-clear block
    when, and only when, there is no alert, and otherwise one block per
    alert, in the order of the alerts. *)
Theorem show_alerts_all_clear_iff (df : list Row) :
  length (show_alerts df) = Nat.max 1 (length (alerts df))
  ∧ (In all_clear_block (show_alerts df) ↔ alerts df = [])
  ∧ (alerts df = [] → show_alerts df = [all_clear_block])
  ∧ (alerts df ≠ [] → show_alerts df = map alert_block (alerts df)).
Proof.
  rewrite show_alerts_cases.
  pose proof (alerts_loop_types (source_metrics df)) as Htypes. fold (alerts df) in Htypes.
  destruct (alerts df) as [|a al] eqn:E.
  - repeat split; try done; intros; by left.
  - repeat split; try done.
    + simpl. rewrite length_map. lia.
    + intros Hin. apply in_map_iff in Hin as (b & Hb & Hin).
      by apply alert_block_not_all_clear in Hb; [|apply Htypes].
Qed.

(** X9.  With a range of two bounds the page halts with the no-data
    warning exactly when no row of the table is both in the range and of a
    selected source; otherwise the alert section is shown, computed on the
    filtered table, with at least one block. *)
Theorem alert_section_halts_iff (df : list Row) (d1 d2 : Z) (S : list string) :
  (alert_section df [d1; d2] S = Halted "No hay datos para los filtros seleccionados"
   ↔ ∀ r, In r df → ¬ ((d1 ≤ dt_date (Fecha r) ≤ d2)%Z ∧ In (Fuente r) S))
  ∧ (∀ blocks, alert_section df [d1; d2] S = Rendered blocks →
       blocks = show_alerts (filtered_df df [d1; d2] S) ∧ blocks ≠ []).
Proof.
  unfold alert_section. split.
  - transitivity (filtered_df df [d1; d2] S = []).
    + destruct (filtered_df df [d1; d2] S); [done | split; discriminate].
    + rewrite filtered_df_two_bounds. unfold filter_spec. rewrite List_filter_nil_iff.
      apply forall_proper. intros r. rewrite <- in_selection_true.
      destruct (in_selection d1 d2 S r); split; intros H Hr; specialize (H Hr);
        congruence || (by intros ?) || done.
  - intros blocks. destruct (filtered_df df [d1; d2] S) as [|r rows] eqn:E; [done|].
    intros [= <-]. split; [done|].
    rewrite show_alerts_cases. by destruct (alerts (r :: rows)).
Qed.

(** X10.  A source gives at most two alerts: there are never more alerts
    than twice the number of sources of the table. *)
Theorem alerts_at_most_two_per_source (df : list Row) :
  (length (alerts df) ≤ 2 * length (all_sources df))%nat.
Proof.
  rewrite alerts_by_group, <- groupby_Fuente_keys, length_map.
  induction (groupby_Fuente df) as [|[k g] groups IH]; simpl; [lia|].
  rewrite length_app.
  pose proof (length_alerts_loop_single k (round_source (agg_source g))). lia.
Qed.

(** *** Means and rounding against a threshold *)

Lemma round_half_even_floor (x : Q) :
  (Qfloor x ≤ round_half_even x ≤ Qfloor x + 1)%Z.
Proof.
  unfold round_half_even.
  destruct (Qcompare (x - inject_Z (Qfloor x)) (1 # 2)); [destruct (Z.even _)| |]; lia.
Qed.

Lemma round_half_even_ge (x : Q) (n : Z) :
  inject_Z n <= x → (n ≤ round_half_even x)%Z.
Proof.
  intros H. apply Qfloor_resp_le in H. rewrite Qfloor_Z in H.
  pose proof (round_half_even_floor x). lia.
Qed.

Lemma round_half_even_below_half (x : Q) (n : Z) :
  x < inject_Z n + (1 # 2) → (round_half_even x ≤ n)%Z.
Proof.
  intros H.
  assert (Qfloor x ≤ n)%Z as Hf.
  { apply Z.lt_succ_r. rewrite Zlt_Qlt. unfold Z.succ. rewrite inject_Z_plus.
    pose proof (Qfloor_le x). change (inject_Z 1) with 1. lra. }
  destruct (Z.eq_dec (Qfloor x) n) as [E|E].
  - unfold round_half_even. cbv zeta. rewrite E.
    assert (x - inject_Z n < 1 # 2) as Hlt by lra.
    assert (Qcompare (x - inject_Z n) (1 # 2) = Lt) as -> by (by apply Qlt_alt).
    done.
  - pose proof (round_half_even_floor x). lia.
Qed.

Lemma round2_ge (q : Q) (n : Z) :
  inject_Z n / 100 <= q → inject_Z n / 100 <= round2 q.
Proof.
  intros H. unfold round2, round_decimals. change (inject_Z (pow10 2)) with 100.
  apply Qle_shift_div_l; [reflexivity|].
  assert (inject_Z n / 100 * 100 == inject_Z n) as -> by field.
  rewrite <- Zle_Qle. apply round_half_even_ge.
  assert (inject_Z n == inject_Z n / 100 * 100) as -> by field.
  apply Qmult_le_compat_r; [exact H | discriminate].
Qed.

Lemma round2_le_below_half (q : Q) (n : Z) :
  q < (inject_Z n + (1 # 2)) / 100 → round2 q <= inject_Z n / 100.
Proof.
  intros H. unfold round2, round_decimals. change (inject_Z (pow10 2)) with 100.
  apply Qle_shift_div_r; [reflexivity|].
  assert (inject_Z n / 100 * 100 == inject_Z n) as -> by field.
  rewrite <- Zle_Qle. apply round_half_even_below_half.
  assert (inject_Z n + (1 # 2) == (inject_Z n + (1 # 2)) / 100 * 100) as -> by field.
  apply Qmult_lt_compat_r; [reflexivity | exact H].
Qed.

Lemma round2_at_least (q t : Q) (n : Z) :
  t == inject_Z n / 100 → t <= q → t <= round2 q.
Proof. intros E H. rewrite E in *. by apply round2_ge. Qed.

Lemma length_pos_Q {A : Type} (l : list A) :
  l ≠ [] → 0 < inject_Z (Z.of_nat (length l)).
Proof.
  intros H. destruct l; [done|]. change 0 with (inject_Z 0). rewrite <- Zlt_Qlt.
  simpl length. lia.
Qed.

Lemma sum_Q_ge (l : list Q) (a : Q) :
  (∀ x, In x l → a <= x) → inject_Z (Z.of_nat (length l)) * a <= sum_Q l.
Proof.
  induction l as [|x l IH]; intros H.
  - unfold sum_Q. simpl. rewrite Qmult_0_l. apply Qle_refl.
  - rewrite sum_Q_cons. simpl length. rewrite Nat2Z.inj_succ. unfold Z.succ.
    rewrite inject_Z_plus. change (inject_Z 1) with 1.
    pose proof (H x (or_introl eq_refl)). pose proof (IH (fun y Hy => H y (or_intror Hy))).
    lra.
Qed.

Lemma sum_Q_lt (l : list Q) (b : Q) :
  l ≠ [] → (∀ x, In x l → x < b) → sum_Q l < inject_Z (Z.of_nat (length l)) * b.
Proof.
  induction l as [|x l IH]; intros Hne H; [done|].
  rewrite sum_Q_cons. simpl length. rewrite Nat2Z.inj_succ. unfold Z.succ.
  rewrite inject_Z_plus. change (inject_Z 1) with 1.
  pose proof (H x (or_introl eq_refl)) as Hx.
  destruct l as [|y l].
  - change (x + 0 < (0 + 1) * b). lra.
  - assert (sum_Q (y :: l) < inject_Z (Z.of_nat (length (y :: l))) * b) as Hl
      by (apply IH; [done | intros z Hz; apply H; by right]).
    lra.
Qed.

Lemma mean_Q_ge (l : list Q) (a : Q) :
  l ≠ [] → (∀ x, In x l → a <= x) → a <= mean_Q l.
Proof.
  intros Hne H. unfold mean_Q. apply Qle_shift_div_l; [by apply length_pos_Q|].
  rewrite Qmult_comm. by apply sum_Q_ge.
Qed.

Lemma mean_Q_lt (l : list Q) (b : Q) :
  l ≠ [] → (∀ x, In x l → x < b) → mean_Q l < b.
Proof.
  intros Hne H. unfold mean_Q. apply Qlt_shift_div_r; [by apply length_pos_Q|].
  rewrite Qmult_comm. by apply sum_Q_lt.
Qed.

(** The means of a group against bounds that hold on every row of the table. *)
Lemma group_mean_ge (df : list Row) (k : string) (g : list Row) (f : Row → Q) (a : Q) :
  In (k, g) (groupby_Fuente df) → (∀ r, In r df → a <= f r) → a <= mean_Q (map f g).
Proof.
  intros Hg H. apply groupby_Fuente_group in Hg as [Hne Hin].
  apply mean_Q_ge; [by destruct g|].
  intros x Hx. apply in_map_iff in Hx as (r & <- & Hr). apply H, Hin, Hr.
Qed.

Lemma group_mean_lt (df : list Row) (k : string) (g : list Row) (f : Row → Q) (b : Q) :
  In (k, g) (groupby_Fuente df) → (∀ r, In r df → f r < b) → mean_Q (map f g) < b.
Proof.
  intros Hg H. apply groupby_Fuente_group in Hg as [Hne Hin].
  apply mean_Q_lt; [by destruct g|].
  intros x Hx. apply in_map_iff in Hx as (r & <- & Hr). apply H, Hin, Hr.
Qed.

Lemma flat_map_nil {A B : Type} (f : A → list B) (l : list A) :
  (∀ x, In x l → f x = []) → flat_map f l = [].
Proof.
  induction l as [|x l IH]; simpl; intros H; [done|].
  rewrite (H x), IH by auto. done.
Qed.

(** X11.  A table whose rows all have a fill rate of at least 80 and an
    eCPM of at least 1 raises no alert: the section shows the all-clear
    block alone. *)
Theorem healthy_rows_all_clear (df : list Row) :
  (∀ r, In r df → 80 <= Fill_Rate r ∧ 1 <= eCPM r) →
  alerts df = [] ∧ show_alerts df = [all_clear_block].
Proof.
  intros H.
  assert (alerts df = []) as Hnone.
  { rewrite alerts_by_group. apply flat_map_nil. intros [k g] Hg.
    rewrite alerts_loop_single. simpl.
    assert (Qltb (round2 (mean_Q (map Fill_Rate g))) 80 = false) as ->.
    { apply not_true_is_false. rewrite Qltb_lt. apply Qle_not_lt.
      apply (round2_at_least _ _ 8000); [reflexivity|].
      apply (group_mean_ge df k); [done|]. intros r Hr. by apply H. }
    assert (Qltb (round2 (mean_Q (map eCPM g))) 1 = false) as ->.
    { apply not_true_is_false. rewrite Qltb_lt. apply Qle_not_lt.
      apply (round2_at_least _ _ 100); [reflexivity|].
      apply (group_mean_ge df k); [done|]. intros r Hr. by apply H. }
    done. }
  split; [done|]. rewrite show_alerts_cases. by rewrite Hnone.
Qed.

Lemma healthy_rows_all_clear_witness :
  show_alerts healthy_sources = [all_clear_block].
Proof.
  apply (healthy_rows_all_clear healthy_sources).
  intros r Hr. simpl in Hr.
  repeat (destruct Hr as [<- | Hr]; [split; simpl; lra|]). destruct Hr.
Defined.

Lemma count_type_app (t : string) (l1 l2 : list Alert) :
  count_type t (l1 ++ l2) = (count_type t l1 + count_type t l2)%nat.
Proof. unfold count_type. by rewrite List.filter_app, length_app. Qed.

(** X12.  A table whose rows all have a fill rate between 0 and 79.99
    raises a danger alert for every one of its sources: the mean of a
    source is 79.99 at most and is still so after rounding. *)
Theorem low_fill_rows_all_danger (df : list Row) :
  (∀ r, In r df → 0 <= Fill_Rate r ∧ Fill_Rate r <= 79.99) →
  count_type "danger" (alerts df) = length (all_sources df).
Proof.
  intros H. rewrite alerts_by_group, <- groupby_Fuente_keys, length_map.
  assert (∀ kg, In kg (groupby_Fuente df) → In kg (groupby_Fuente df)) as Hsub by auto.
  revert Hsub. generalize (groupby_Fuente df) at 1 3 4.
  induction l as [|[k g] groups IH]; intros Hsub; [done|].
  simpl. rewrite count_type_app, IH by (intros kg Hkg; apply Hsub; by right).
  destruct (count_type_single k (round_source (agg_source g))) as [-> _]. simpl.
  assert (Qltb (round2 (mean_Q (map Fill_Rate g))) 80 = true) as ->; [|done].
  apply Qltb_lt.
  apply Qle_lt_trans with (inject_Z 7999 / 100); [|reflexivity].
  apply round2_le_below_half.
  assert ((inject_Z 7999 + (1 # 2)) / 100 == 79.995) as -> by reflexivity.
  apply (group_mean_lt df k); [apply Hsub; by left|].
  intros r Hr. apply Qle_lt_trans with 79.99; [by apply H | reflexivity].
Qed.

Lemma low_fill_rows_all_danger_witness :
  count_type "danger" (alerts low_fill_sources) = 2%nat.
Proof.
  rewrite (low_fill_rows_all_danger low_fill_sources).
  - vm_compute. reflexivity.
  - intros r Hr. simpl in Hr.
    repeat (destruct Hr as [<- | Hr]; [simpl; lra|]). destruct Hr.
Defined.

(** ** One row per source, whatever the order of the table *)

Lemma ascii_compare_refl (a : ascii) : Ascii.compare a a = Eq.
Proof. unfold Ascii.compare. apply N.compare_refl. Qed.

Lemma ascii_compare_lt_trans (a b c : ascii) :
  Ascii.compare a b = Lt → Ascii.compare b c = Lt → Ascii.compare a c = Lt.
Proof. unfold Ascii.compare. rewrite !N.compare_lt_iff. lia. Qed.

Lemma str_compare_lt_trans (s1 s2 s3 : string) :
  String.compare s1 s2 = Lt → String.compare s2 s3 = Lt → String.compare s1 s3 = Lt.
Proof.
  revert s2 s3. induction s1 as [|a s1 IH]; intros [|b s2] [|c s3]; simpl; try done.
  destruct (Ascii.compare a b) eqn:Eab; try done;
    destruct (Ascii.compare b c) eqn:Ebc; try done.
  - apply Ascii.compare_eq_iff in Eab, Ebc. subst. rewrite ascii_compare_refl. apply IH.
  - apply Ascii.compare_eq_iff in Eab. subst. by rewrite Ebc.
  - apply Ascii.compare_eq_iff in Ebc. subst. by rewrite Eab.
  - by rewrite (ascii_compare_lt_trans a b c).
Qed.

#[global] Instance str_le_trans : Transitive str_le.
Proof.
  intros a b c. unfold str_le, String.leb.
  destruct (String.compare a b) eqn:Eab; try done;
    destruct (String.compare b c) eqn:Ebc; try done; intros _ _.
  - apply String.compare_eq_iff in Eab. subst. by rewrite Ebc.
  - apply String.compare_eq_iff in Eab. subst. by rewrite Ebc.
  - apply String.compare_eq_iff in Ebc. subst. by rewrite Eab.
  - by rewrite (str_compare_lt_trans a b c).
Qed.

#[global] Instance str_le_antisym : AntiSymm eq str_le.
Proof. intros a b. apply String.leb_antisym. Qed.

(** Sorted lists of sources without repetition are equal as soon as they
    have the same members. *)
Lemma sorted_sources_unique (l1 l2 : list string) :
  Sorted str_le l1 → Sorted str_le l2 → NoDup l1 → NoDup l2 →
  (∀ s, In s l1 ↔ In s l2) → l1 = l2.
Proof.
  intros S1 S2 N1 N2 H. apply (Sorted_unique str_le); [done | done |].
  apply NoDup_Permutation; [done | done |].
  intros s. rewrite !list_elem_of_In. apply H.
Qed.

Lemma all_sources_perm (df df' : list Row) : df ≡ₚ df' → all_sources df = all_sources df'.
Proof.
  intros Hp. apply sorted_sources_unique;
    try apply all_sources_sorted; try apply NoDup_all_sources.
  intros s. rewrite !In_all_sources, <- !list_elem_of_In. by rewrite Hp.
Qed.

Lemma List_filter_perm {A : Type} (f : A → bool) (l l' : list A) :
  l ≡ₚ l' → List.filter f l ≡ₚ List.filter f l'.
Proof.
  induction 1 as [|x l l' _ IH|x y l|l l' l'' _ IH1 _ IH2]; simpl.
  - done.
  - destruct (f x); by rewrite IH.
  - destruct (f x), (f y); try done. apply perm_swap.
  - by rewrite IH1.
Qed.

(** X13.  The per-source tables have one row for each source of the
    table and no other: their keys are the sources of the table, sorted,
    each once; this holds for the table of the alerts and for the detailed
    table alike. *)
Theorem one_row_per_source (df : list Row) :
  map fst (source_metrics df) = all_sources df
  ∧ map fst (detailed_metrics df) = all_sources df
  ∧ NoDup (all_sources df)
  ∧ Sorted str_le (all_sources df)
  ∧ (∀ s, In s (all_sources df) ↔ ∃ r, In r df ∧ Fuente r = s).
Proof.
  unfold source_metrics, detailed_metrics. rewrite !map_map. simpl.
  change (map (fun x : string * list Row => x.1) (groupby_Fuente df))
    with (map fst (groupby_Fuente df)).
  rewrite groupby_Fuente_keys.
  split; [done|]. split; [done|]. split; [apply NoDup_all_sources|].
  split; [apply all_sources_sorted|].
  intros s. rewrite In_all_sources, in_map_iff.
  split; intros (r & H1 & H2); exists r; tauto.
Qed.

(** X14.  Putting the rows of a table in another order changes neither
    the sources that the per-source tables list nor their order, and each
    source is aggregated over the same rows, in the order they now have. *)
Theorem row_order_keeps_groups (df df' : list Row) :
  df ≡ₚ df' →
  map fst (groupby_Fuente df) = map fst (groupby_Fuente df')
  ∧ Forall2 (fun kg kg' => fst kg = fst kg' ∧ snd kg ≡ₚ snd kg')
            (groupby_Fuente df) (groupby_Fuente df')
  ∧ map fst (source_metrics df) = map fst (source_metrics df')
  ∧ map fst (detailed_metrics df) = map fst (detailed_metrics df').
Proof.
  intros Hp.
  assert (map fst (groupby_Fuente df) = map fst (groupby_Fuente df')) as Hkeys
    by (rewrite !groupby_Fuente_keys; by apply all_sources_perm).
  split; [exact Hkeys|]. split; [|split].
  - unfold groupby_Fuente. rewrite (all_sources_perm df df' Hp).
    induction (all_sources df') as [|k keys IH]; simpl; constructor; [|exact IH].
    split; [done|]. by apply List_filter_perm.
  - unfold source_metrics. rewrite !map_map. exact Hkeys.
  - unfold detailed_metrics. rewrite !map_map. exact Hkeys.
Qed.

Lemma row_order_keeps_groups_witness :
  map fst (source_metrics (rev two_sources_two_days)) = ["SourceA"; "SourceB"].
Proof.
  destruct (row_order_keeps_groups (rev two_sources_two_days) two_sources_two_days)
    as (_ & _ & -> & _).
  - symmetry. apply Permutation_rev.
  - vm_compute. reflexivity.
Defined.

(** ** The technology tabs *)

Lemma StronglySorted_List_filter {A : Type} (R : relation A) (f : A → bool) (l : list A) :
  StronglySorted R l → StronglySorted R (List.filter f l).
Proof.
  induction 1 as [|x l Hl IH Hx]; simpl; [constructor|].
  destruct (f x); [|done]. constructor; [done|].
  apply List.Forall_forall. intros y Hy. apply filter_In in Hy as [Hy _].
  by apply (proj1 (List.Forall_forall _ _) Hx).
Qed.

Lemma List_filter_map {A B : Type} (f : A → B) (p : B → bool) (l : list A) :
  List.filter p (map f l) = map f (List.filter (fun x => p (f x)) l).
Proof.
  induction l as [|x l IH]; simpl; [done|]. rewrite IH. by destruct (p (f x)).
Qed.

Lemma all_sources_filter (p : string → bool) (df : list Row) :
  all_sources (List.filter (fun r => p (Fuente r)) df) = List.filter p (all_sources df).
Proof.
  apply sorted_sources_unique.
  - apply all_sources_sorted.
  - apply StronglySorted_Sorted, StronglySorted_List_filter.
    apply (Sorted_StronglySorted str_le), all_sources_sorted.
  - apply NoDup_all_sources.
  - eapply sublist_NoDup; [apply NoDup_all_sources | apply sublist_List_filter].
  - intros s. rewrite filter_In, !In_all_sources, !in_map_iff. split.
    + intros (r & <- & Hr). apply filter_In in Hr as [Hr Hp]. split; [by exists r | done].
    + intros [(r & <- & Hr) Hp]. exists r. split; [done|]. by apply filter_In.
Qed.

Lemma groupby_Fuente_filter (p : string → bool) (df : list Row) :
  groupby_Fuente (List.filter (fun r => p (Fuente r)) df)
  = List.filter (fun kg => p (fst kg)) (groupby_Fuente df).
Proof.
  unfold groupby_Fuente. rewrite all_sources_filter, List_filter_map. simpl.
  apply map_ext_in. intros k Hk. apply filter_In in Hk as [_ Hk]. f_equal.
  rewrite List_filter_twice. apply List_filter_ext_in. intros r _.
  destruct (String.eqb_spec (Fuente r) k) as [->|]; [by rewrite Hk | apply andb_false_r].
Qed.

(** X15.  A technology tab shows, for each source whose name contains the
    keyword and for no other, the revenue, impressions, fill rate and eCPM
    of the detailed table; the tab stays empty exactly when no source of
    the filtered table contains the keyword. *)
Theorem tech_metrics_is_detailed_restricted (keyword : string) (filtered : list Row) :
  match tech_metrics keyword filtered with
  | Some table =>
      table
      = map (fun sm => (fst sm, tech_view (snd sm)))
            (List.filter (fun sm => str_contains keyword (fst sm)) (detailed_metrics filtered))
      ∧ table ≠ []
  | None => ∀ s, In s (all_sources filtered) → str_contains keyword s = false
  end.
Proof.
  unfold tech_metrics, tech_data. rewrite boolean_index_map.
  destruct (List.filter (fun r => str_contains keyword (Fuente r)) filtered)
    as [|r0 rows] eqn:E.
  - intros s Hs. apply In_all_sources, in_map_iff in Hs as (r & <- & Hr).
    by apply (proj1 (List_filter_nil_iff _ _) E).
  - rewrite <- E. rewrite (groupby_Fuente_filter (str_contains keyword)).
    unfold detailed_metrics. rewrite List_filter_map, !map_map. simpl. split; [done|].
    assert (In (Fuente r0) (all_sources (List.filter (fun r => str_contains keyword (Fuente r))
                                                    filtered))) as Hin
      by (rewrite E; apply In_all_sources; by left).
    rewrite <- (groupby_Fuente_keys (List.filter _ filtered)) in Hin.
    rewrite (groupby_Fuente_filter (str_contains keyword)) in Hin.
    destruct (List.filter _ (groupby_Fuente filtered)); [destruct Hin | done].
Qed.

(** ** The ranking and the daily totals *)

#[global] Instance revenue_desc_total : Total revenue_desc.
Proof.
  intros a b. unfold revenue_desc. rewrite !Qle_bool_iff.
  destruct (Qlt_le_dec (snd a) (snd b)) as [H|H]; [right; by apply Qlt_le_weak | by left].
Qed.

#[global] Instance revenue_desc_trans : Transitive revenue_desc.
Proof.
  intros a b c. unfold revenue_desc. rewrite !Qle_bool_iff. intros H1 H2.
  by apply Qle_trans with (snd b).
Qed.

(** X16.  The ranking lists ten sources, or all of them when there are
    fewer, each with its full-precision revenue sum, by decreasing
    revenue; no source left out has more revenue than a listed one. *)
Theorem top_sources_ranking (filtered : list Row) :
  length (top_sources filtered) = Nat.min 10 (length (all_sources filtered))
  ∧ StronglySorted (fun a b => snd b <= snd a) (top_sources filtered)
  ∧ ∃ rest,
      top_sources filtered ++ rest ≡ₚ revenue_by_source filtered
      ∧ ∀ a b, In a (top_sources filtered) → In b rest → snd b <= snd a.
Proof.
  unfold top_sources.
  pose proof (StronglySorted_merge_sort revenue_desc (revenue_by_source filtered)) as Hs.
  pose proof (merge_sort_Permutation revenue_desc (revenue_by_source filtered)) as Hp.
  rewrite <- (firstn_skipn 10) in Hs.
  split; [|split].
  - rewrite length_firstn, (Permutation_length Hp).
    unfold revenue_by_source. by rewrite length_map, <- groupby_Fuente_keys, length_map.
  - apply StronglySorted_app_1_l in Hs.
    induction Hs as [|x l Hl IH Hx]; constructor; [done|].
    eapply Forall_impl; [exact Hx|]. intros y Hy. by apply Qle_bool_iff.
  - exists (skipn 10 (merge_sort revenue_desc (revenue_by_source filtered))).
    split; [by rewrite firstn_skipn|].
    intros a b Ha Hb. apply Qle_bool_iff.
    apply (StronglySorted_app_1_elem_of revenue_desc _ _ a b Hs); by apply list_elem_of_In.
Qed.

Section GroupSums.

Context {K : Type} (key : Row → K) (eqb : K → K → bool).
Hypothesis eqb_eq : ∀ a b, eqb a b = true ↔ a = b.

Lemma existsb_eqb (keys : list K) (k : K) : existsb (eqb k) keys = true ↔ In k keys.
Proof.
  rewrite existsb_exists. split.
  - intros (x & Hx & E). apply eqb_eq in E. by subst.
  - intros H. exists k. split; [done | by apply eqb_eq].
Qed.

(** Summing key by key, over keys without repetition. *)
Lemma sum_by_key (w : Row → Q) (df : list Row) (keys : list K) :
  NoDup keys →
  sum_Q (map (fun k => sum_Q (map w (List.filter (fun r => eqb (key r) k) df))) keys)
  == sum_Q (map w (List.filter (fun r => existsb (eqb (key r)) keys) df)).
Proof.
  induction 1 as [|k keys Hk Hnd IH]; simpl.
  - assert (List.filter (fun _ : Row => false) df = []) as ->
      by (induction df; simpl; auto).
    reflexivity.
  - rewrite sum_Q_cons, IH.
    rewrite <- (sum_filter_disjoint w (fun r => eqb (key r) k)
                  (fun r => existsb (eqb (key r)) keys)); [reflexivity|].
    intros r. destruct (eqb (key r) k) eqn:E; [|done]. apply eqb_eq in E. simpl.
    apply not_true_is_false. rewrite existsb_eqb, E. by rewrite list_elem_of_In in Hk.
Qed.

End GroupSums.

(** X17.  The daily series has one point for each timestamp of the
    filtered table, in the order of time; on a table whose revenues are
    whole numbers of moderate size (an [exact_column]) its revenues add up
    to the total revenue. *)
Theorem daily_total_adds_up (filtered : list Row) :
  NoDup (map fst (daily_total filtered))
  ∧ Sorted Z.le (map fst (daily_total filtered))
  ∧ (∀ t, In t (map fst (daily_total filtered)) ↔ ∃ r, In r filtered ∧ Fecha r = t)
  ∧ (exact_column Revenue filtered →
     sum_Q (map snd (daily_total filtered)) == total_revenue filtered).
Proof.
  unfold daily_total, total_revenue. rewrite !map_map. simpl. rewrite map_id.
  assert (∀ t, In t (merge_sort Z.le (remove_dups (map Fecha filtered)))
               ↔ In t (map Fecha filtered)) as Hin.
  { intros t. rewrite <- !list_elem_of_In, merge_sort_Permutation.
    apply elem_of_remove_dups. }
  assert (NoDup (merge_sort Z.le (remove_dups (map Fecha filtered)))) as Hnd
    by (rewrite merge_sort_Permutation; apply NoDup_remove_dups).
  split; [done|]. split; [|split].
  - apply Sorted_merge_sort, _.
  - intros t. rewrite Hin, in_map_iff. split; intros (r & H1 & H2); exists r; tauto.
  - intros _. rewrite (sum_by_key Fecha Z.eqb Z.eqb_eq Revenue) by done.
    rewrite List_filter_all; [reflexivity|].
    intros r Hr. apply (existsb_eqb Z.eqb Z.eqb_eq), Hin, in_map, Hr.
Qed.

(** ** The sample data *)

Lemma for_each_Forall {A B : Type} (body : A → nat → B * nat) (P : B → Prop)
    (l : list A) (n : nat) :
  (∀ x m, In x l → P (fst (body x m))) → Forall P (fst (for_each body l n)).
Proof.
  revert n. induction l as [|x l IH]; intros n H; simpl; [constructor|].
  pose proof (H x n (or_introl eq_refl)) as Hx.
  destruct (body x n) as [y n1]. specialize (IH n1 (fun z m Hz => H z m (or_intror Hz))).
  destruct (for_each body l n1) as [ys n2]. simpl in *. by constructor.
Qed.

Lemma for_each_map {A B C : Type} (body : A → nat → B * nat) (g : B → C) (h : A → C)
    (l : list A) (n : nat) :
  (∀ x m, g (fst (body x m)) = h x) → map g (fst (for_each body l n)) = map h l.
Proof.
  intros H. revert n. induction l as [|x l IH]; intros n; simpl; [done|].
  pose proof (H x n) as Hx. destruct (body x n) as [y n1].
  specialize (IH n1). destruct (for_each body l n1) as [ys n2]. simpl in *.
  by rewrite Hx, IH.
Qed.

Lemma round2_at_most (q t : Q) (n : Z) :
  t == inject_Z n / 100 → q <= t → round2 q <= t.
Proof.
  intros E H. rewrite E in *. apply round2_le_below_half.
  apply Qle_lt_trans with (inject_Z n / 100); [done|].
  apply Qmult_lt_compat_r; [reflexivity | lra].
Qed.

Lemma mapM_all_Some {A B : Type} (f : A → option B) (g : A → B) (l : list A) :
  (∀ x, In x l → f x = Some (g x)) → mapM f l = Some (map g l).
Proof.
  induction l as [|x l IH]; intros H; simpl; [done|].
  rewrite (H x) by (by left). simpl. rewrite IH by (intros y Hy; apply H; by right).
  done.
Qed.

Lemma sample_dates_read_back (d : Z) :
  In d sample_dates → parse_iso_date (strftime_iso d) = Some d.
Proof.
  assert (forallb (fun d => match parse_iso_date (strftime_iso d) with
                            | Some t => (t =? d)%Z
                            | None => false
                            end) sample_dates = true) as H
    by (vm_compute; reflexivity).
  intros Hd. apply (proj1 (forallb_forall _ _) H) in Hd.
  destruct (parse_iso_date (strftime_iso d)); [|done]. by apply Z.eqb_eq in Hd as ->.
Qed.

Section SampleFacts.

Variables gauss unif : nat → Q.

Lemma sample_record_key (date : Z) (source : string) (n : nat) :
  s_Fecha (fst (sample_record gauss unif date source n)) = strftime_iso date
  ∧ s_Fuente (fst (sample_record gauss unif date source n)) = source.
Proof.
  unfold sample_record, normal, uniform.
  by destruct (str_contains "Google" source), (str_contains "Prebid" source).
Qed.

Lemma generate_sample_data_keys (n : nat) :
  map (fun rec => (s_Fecha rec, s_Fuente rec)) (generate_sample_data gauss unif n)
  = list_prod (map strftime_iso sample_dates) sample_sources.
Proof.
  unfold generate_sample_data.
  rewrite concat_map.
  rewrite (for_each_map _ _ (fun date => map (pair (strftime_iso date)) sample_sources)).
  - generalize sample_sources. intros sources. induction sample_dates as [|d ds IH]; [done|].
    simpl. by rewrite IH.
  - intros date m. apply for_each_map. intros source k.
    by destruct (sample_record_key date source k) as [-> ->].
Qed.

Lemma sample_record_bounds (date : Z) (source : string) (n : nat) :
  (∀ k, 0 <= unif k ∧ unif k < 1) →
  let rec := fst (sample_record gauss unif date source n) in
  (1000 ≤ s_Impresiones rec)%Z
  ∧ 0 <= s_Revenue rec
  ∧ s_Page_RPM rec = s_eCPM rec
  ∧ (75 <= s_Fill_Rate rec ∧ s_Fill_Rate rec <= 95)
  ∧ (0.1 <= s_CTR rec ∧ s_CTR rec <= 2.5).
Proof.
  intros Hu. unfold sample_record, normal, uniform.
  assert (∀ base, 0 <= round2 (if Qltb 0 base then base else 0)) as Hrev.
  { intros base. apply (round2_at_least _ _ 0); [reflexivity|].
    destruct (Qltb 0 base) eqn:E; [|apply Qle_refl].
    apply Qltb_lt in E. by apply Qlt_le_weak. }
  assert (∀ k, 75 <= round2 (75 + (95 - 75) * unif k)
               ∧ round2 (75 + (95 - 75) * unif k) <= 95) as Hfill.
  { intros k. destruct (Hu k). split.
    - apply (round2_at_least _ _ 7500); [reflexivity | lra].
    - apply (round2_at_most _ _ 9500); [reflexivity | lra]. }
  assert (∀ k, 0.1 <= round2 (0.1 + (2.5 - 0.1) * unif k)
               ∧ round2 (0.1 + (2.5 - 0.1) * unif k) <= 2.5) as Hctr.
  { intros k. destruct (Hu k). split.
    - apply (round2_at_least _ _ 10); [reflexivity | lra].
    - apply (round2_at_most _ _ 250); [reflexivity | lra]. }
  destruct (str_contains "Google" source), (str_contains "Prebid" source); simpl;
    (split; [lia|]); (split; [apply Hrev|]); (split; [done|]);
    (split; [apply Hfill | apply Hctr]).
Qed.

(** X18.  Whatever the generator draws, the sample data has one record
    for each of the 31 days of January 2024 and each of the 15 sources, 465
    in all, day by day and within a day in the order of the source list. *)
Theorem generate_sample_data_shape (n : nat) :
  map (fun rec => (s_Fecha rec, s_Fuente rec)) (generate_sample_data gauss unif n)
    = list_prod (map strftime_iso sample_dates) sample_sources
  ∧ length (generate_sample_data gauss unif n) = 465%nat
  ∧ head (map s_Fecha (generate_sample_data gauss unif n)) = Some "2024-01-01"
  ∧ last (map s_Fecha (generate_sample_data gauss unif n)) = Some "2024-01-31".
Proof.
  pose proof (generate_sample_data_keys n) as Hk.
  split; [done|].
  assert (map s_Fecha (generate_sample_data gauss unif n)
          = map fst (list_prod (map strftime_iso sample_dates) sample_sources)) as Hf
    by (rewrite <- Hk, map_map; done).
  split; [|split].
  - rewrite <- (length_map (fun rec => (s_Fecha rec, s_Fuente rec))), Hk.
    vm_compute. reflexivity.
  - rewrite Hf. vm_compute. reflexivity.
  - rewrite Hf. vm_compute. reflexivity.
Qed.

(** X19.  When the uniform deviates lie in [0, 1), every record of the
    sample data has at least 1000 impressions, a revenue that is not
    negative, the same page RPM and eCPM, a fill rate between 75 and 95 and
    a CTR between 0.1 and 2.5, whatever the normal deviates are. *)
Theorem generate_sample_data_bounds (n : nat) :
  (∀ k, 0 <= unif k ∧ unif k < 1) →
  Forall (fun rec =>
            (1000 ≤ s_Impresiones rec)%Z
            ∧ 0 <= s_Revenue rec
            ∧ s_Page_RPM rec = s_eCPM rec
            ∧ (75 <= s_Fill_Rate rec ∧ s_Fill_Rate rec <= 95)
            ∧ (0.1 <= s_CTR rec ∧ s_CTR rec <= 2.5))
         (generate_sample_data gauss unif n).
Proof.
  intros Hu. unfold generate_sample_data. apply Forall_concat.
  apply for_each_Forall. intros date m _.
  apply for_each_Forall. intros source k _.
  by apply sample_record_bounds.
Qed.

Lemma sample_row_impressions (n : nat) (r : Row) :
  In r (map sample_row (generate_sample_data gauss unif n)) → 1000 <= Impresiones r.
Proof.
  intros Hr. apply in_map_iff in Hr as (rec & <- & Hrec). simpl.
  unfold generate_sample_data in Hrec. apply in_concat in Hrec as (chunk & Hchunk & Hrec).
  assert (Forall (Forall (fun rec => (1000 ≤ s_Impresiones rec)%Z))
            (fst (for_each (fun date => for_each (sample_record gauss unif date)
                                                 sample_sources) sample_dates n))) as Hall.
  { apply for_each_Forall. intros date m _. apply for_each_Forall. intros source k _.
    unfold sample_record, normal, uniform.
    destruct (str_contains "Google" source), (str_contains "Prebid" source); simpl; lia. }
  pose proof (proj1 (List.Forall_forall _ _) Hall chunk Hchunk) as Hc.
  pose proof (proj1 (List.Forall_forall _ _) Hc rec Hrec) as Hi.
  change 1000 with (inject_Z 1000). by rewrite <- Zle_Qle.
Qed.

Lemma sample_table_rows (n : nat) :
  sample_table gauss unif n = Some (map sample_row (generate_sample_data gauss unif n))
  ∧ map (fun r => (Fecha r, Fuente r)) (map sample_row (generate_sample_data gauss unif n))
    = list_prod sample_dates sample_sources.
Proof.
  pose proof (generate_sample_data_keys n) as Hk.
  assert (∀ rec, In rec (generate_sample_data gauss unif n) →
                 ∃ d, In d sample_dates ∧ s_Fecha rec = strftime_iso d) as Hd.
  { intros rec Hrec.
    apply (in_map (fun rec => (s_Fecha rec, s_Fuente rec))) in Hrec. rewrite Hk in Hrec.
    apply in_prod_iff in Hrec as [Hrec _].
    apply in_map_iff in Hrec as (d & Hs & Hd). exists d. split; [exact Hd | by symmetry]. }
  split.
  - unfold sample_table. apply mapM_all_Some. intros rec Hrec.
    destruct (Hd rec Hrec) as (d & Hin & E). unfold sample_row.
    by rewrite E, (sample_dates_read_back d Hin).
  - rewrite map_map.
    transitivity (map (fun p : string * string => (default 0%Z (parse_iso_date (fst p)), snd p))
                      (map (fun rec => (s_Fecha rec, s_Fuente rec))
                           (generate_sample_data gauss unif n))).
    + by rewrite map_map.
    + rewrite Hk. vm_compute. reflexivity.
Qed.

(** X20.  The sample branch always gets its table: the dates written by
    the generator are read back, and the table has its 465 rows on the days
    from 2024-01-01 to 2024-01-31, which is the range the date widget
    starts with, and on the 15 sources, which the source widget lists in
    alphabetical order. *)
Theorem sample_table_loads (n : nat) :
  ∃ rows,
    sample_table gauss unif n = Some rows
    ∧ map (fun r => (Fecha r, Fuente r)) rows = list_prod sample_dates sample_sources
    ∧ length rows = 465%nat
    ∧ default_date_range rows = Some [19723; 19753]%Z
    ∧ all_sources rows
      = ["Google_AdEx"; "Google_OpenBidding"; "Prebid_AppNexus"; "Prebid_Criteo";
         "Prebid_Nexx360"; "Prebid_Ogury"; "Prebid_Optidigital"; "Prebid_Richaudience";
         "TAM_Amazon"; "TAM_Equativ"; "TAM_IndexExchange"; "TAM_MediaNet";
         "TAM_Onetag"; "TAM_Outbrain"; "TAM_Pubmatic"].
Proof.
  destruct (sample_table_rows n) as [Hrows Hkeys].
  exists (map sample_row (generate_sample_data gauss unif n)).
  set (rows := map sample_row (generate_sample_data gauss unif n)) in *.
  assert (map Fecha rows = map fst (list_prod sample_dates sample_sources)) as HF
    by (rewrite <- Hkeys, map_map; done).
  assert (map Fuente rows = map snd (list_prod sample_dates sample_sources)) as HS
    by (rewrite <- Hkeys, map_map; done).
  split; [done|]. split; [done|]. split; [|split].
  - rewrite <- (length_map (fun r => (Fecha r, Fuente r))), Hkeys. vm_compute. reflexivity.
  - unfold default_date_range, Fecha_min, Fecha_max. rewrite HF. vm_compute. reflexivity.
  - unfold all_sources. rewrite HS. vm_compute. reflexivity.
Qed.

(** X21.  On the sample table the overall page RPM is always the quotient
    of the totals: the impressions add up to 465000 at least, so the
    fallback to 0 is never taken. *)
Theorem sample_table_page_rpm (n : nat) :
  ∃ rows,
    sample_table gauss unif n = Some rows
    ∧ 465000 <= total_impressions rows
    ∧ avg_page_rpm rows = Some (total_revenue rows / total_impressions rows * 1000).
Proof.
  destruct (sample_table_rows n) as [Hrows Hkeys].
  pose proof (sample_row_impressions n) as Himp.
  revert Hrows Hkeys Himp. generalize (map sample_row (generate_sample_data gauss unif n)) as rows.
  intros rows Hrows Hkeys Himp. exists rows. split; [exact Hrows|].
  assert (465000 <= total_impressions rows) as Hbig.
  { unfold total_impressions.
    assert (length (map Impresiones rows) = 465%nat) as Hlen.
    { rewrite length_map, <- (length_map (fun r => (Fecha r, Fuente r))), Hkeys.
      vm_compute. reflexivity. }
    pose proof (sum_Q_ge (map Impresiones rows) 1000) as Hsum. rewrite Hlen in Hsum.
    eapply Qle_trans; [|apply Hsum].
    - vm_compute. discriminate.
    - intros x Hx. apply in_map_iff in Hx as (r & <- & Hr). apply Himp, Hr. }
  clear Hrows Hkeys Himp. split; [exact Hbig|].
  unfold avg_page_rpm, py_div.
  assert (0 < total_impressions rows) as Hpos by (eapply Qlt_le_trans; [|exact Hbig]; reflexivity).
  assert (Qltb 0 (total_impressions rows) = true) as -> by (apply Qltb_lt; exact Hpos).
  destruct (Qeq_bool (total_impressions rows) 0) eqn:Hz; [|reflexivity].
  apply Qeq_bool_eq in Hz. rewrite Hz in Hpos. destruct (Qlt_irrefl _ Hpos).
Qed.

End SampleFacts.

(** X19 with deviates that go round: normal deviates from -3 to 3, uniform
    ones from 0 to 0.9. *)
Lemma generate_sample_data_bounds_witness :
  Forall (fun rec =>
            (1000 ≤ s_Impresiones rec)%Z
            ∧ 0 <= s_Revenue rec
            ∧ s_Page_RPM rec = s_eCPM rec
            ∧ (75 <= s_Fill_Rate rec ∧ s_Fill_Rate rec <= 95)
            ∧ (0.1 <= s_CTR rec ∧ s_CTR rec <= 2.5))
         (generate_sample_data (fun k => inject_Z (Z.of_nat k mod 7 - 3))
                               (fun k => inject_Z (Z.of_nat k mod 10) / 10) 0).
Proof.
  apply (generate_sample_data_bounds (fun k => inject_Z (Z.of_nat k mod 7 - 3))
           (fun k => inject_Z (Z.of_nat k mod 10) / 10) 0).
  intros k. pose proof (Z.mod_pos_bound (Z.of_nat k) 10 eq_refl) as [Hlo Hhi]. split.
  - apply Qle_shift_div_l; [reflexivity|]. rewrite Qmult_0_l.
    change 0 with (inject_Z 0). by rewrite <- Zle_Qle.
  - apply Qlt_shift_div_r; [reflexivity|]. rewrite Qmult_1_l.
    change 10 with (inject_Z 10). by rewrite <- Zlt_Qlt.
Defined.

